(** * RazorMonitor: offline DQM for the razor triggers

    A shallow embedding of DQMOffline/Trigger/plugins/RazorMonitor.cc.

    - C++ [double] and [float] are IEEE-754 binary64 and binary32 values,
      modelled by [spec_float] with the operations of the Standard Library's
      [SpecFloat] (round to nearest, ties to even).
    - The members of the vector classes the plugin calls ([Pt], [P], [Mag2],
      [Dot], ...) are written out as the arithmetic they perform.
    - [analyze] runs in a small monad that threads the plugin's histograms
      and writes a journal of what the function did, and that can leave early
      ([return;]) or stop abnormally (dereference of an invalid handle,
      [at] out of range, [Fill] through a null pointer). *)

From Stdlib Require Import ZArith List Bool String Lia Sorted.
From Stdlib Require Import Floats.SpecFloat.
Import ListNotations.

Set Implicit Arguments.

(** ** IEEE-754 numbers *)

Declare Scope dbl_scope.
Delimit Scope dbl_scope with dbl.

(** C++ [double]. *)
Definition double : Type := spec_float.

Module Double.
Definition prec : Z := 53.
Definition emax : Z := 1024.

Definition t : Type := double.

Definition of_Z (n : Z) : t := binary_normalize prec emax n 0 false.

Definition add : t -> t -> t := SFadd prec emax.
Definition sub : t -> t -> t := SFsub prec emax.
Definition mul : t -> t -> t := SFmul prec emax.
Definition div : t -> t -> t := SFdiv prec emax.
Definition sqrt : t -> t := SFsqrt prec emax.
Definition abs : t -> t := SFabs.
Definition opp : t -> t := SFopp.

(** The comparison operators of C++; each is false as soon as one operand
    is a NaN. *)
Definition ltb (a b : t) : bool := SFltb a b.
Definition leb (a b : t) : bool := SFleb a b.
Definition gtb (a b : t) : bool := SFltb b a.
Definition geb (a b : t) : bool := SFleb b a.
Definition eqb (a b : t) : bool := SFeqb a b.

Definition is_nan (a : t) : bool :=
  match a with S754_nan => true | _ => false end.
Definition is_infinite (a : t) : bool :=
  match a with S754_infinity _ => true | _ => false end.
Definition is_zero (a : t) : bool :=
  match a with S754_zero _ => true | _ => false end.
End Double.

Infix "+" := Double.add : dbl_scope.
Infix "-" := Double.sub : dbl_scope.
Infix "*" := Double.mul : dbl_scope.
Infix "/" := Double.div : dbl_scope.
Infix "<?" := Double.ltb : dbl_scope.
Infix "<=?" := Double.leb : dbl_scope.
Infix ">?" := Double.gtb : dbl_scope.
Infix ">=?" := Double.geb : dbl_scope.
Infix "=?" := Double.eqb : dbl_scope.

(** C++ [float], and the two conversions between it and [double]. *)
Module Single.
Definition prec : Z := 24.
Definition emax : Z := 128.

Definition t : Type := spec_float.

Definition div : t -> t -> t := SFdiv prec emax.

(** [float(x)] for a [double] x: rounded to the nearest binary32 value. *)
Definition of_double (x : double) : t :=
  match x with
  | S754_finite s m e => binary_round prec emax s m e
  | _ => x
  end.

(** The implicit widening of a [float] to [double]; it is exact. *)
Definition to_double (x : t) : double :=
  match x with
  | S754_finite s m e => binary_round Double.prec Double.emax s m e
  | _ => x
  end.
End Single.

(** The literals of the source file. *)
Definition dbl_0 : double := S754_zero false.                (* 0, 0.0 *)
Definition dbl_1 : double := Double.of_Z 1.                  (* 1. *)
Definition dbl_m1 : double := Double.of_Z (-1).              (* -1 *)
Definition dbl_0_5 : double := (Double.of_Z 1 / Double.of_Z 2)%dbl.   (* 0.5 *)
Definition dbl_0_1 : double := (Double.of_Z 1 / Double.of_Z 10)%dbl.  (* 0.1 *)

(** M_PI of <cmath>, 0x1.921fb54442d18p+1. *)
Definition M_PI : double := S754_finite false 7074237752028440 (-51).

(** ** The vector classes *)

(** math::XYZTLorentzVector: a four-vector held as (px, py, pz, E). *)
Record XYZTLorentzVector : Type := mkLV {
  Px : double;
  Py : double;
  Pz : double;
  E  : double
}.

(** math::XYZVector: a three-vector held as (x, y, z). *)
Record XYZVector : Type := mkV3 {
  v_x : double;
  v_y : double;
  v_z : double
}.

(** TVector3 with its members fX, fY, fZ. *)
Record TVector3 : Type := mkTV3 {
  fX : double;
  fY : double;
  fZ : double
}.

Section VectorOps.
Local Open Scope dbl_scope.

(** Transverse momentum: sqrt(px^2 + py^2). *)
Definition Pt (v : XYZTLorentzVector) : double :=
  Double.sqrt (Px v * Px v + Py v * Py v).

(** Magnitude of the momentum: sqrt(px^2 + py^2 + pz^2). *)
Definition P (v : XYZTLorentzVector) : double :=
  Double.sqrt (Px v * Px v + Py v * Py v + Pz v * Pz v).

(** The spatial part. *)
Definition Vect (v : XYZTLorentzVector) : XYZVector :=
  mkV3 (Px v) (Py v) (Pz v).

Definition V3_add (a b : XYZVector) : XYZVector :=
  mkV3 (v_x a + v_x b) (v_y a + v_y b) (v_z a + v_z b).

Definition V3_Dot (a b : XYZVector) : double :=
  v_x a * v_x b + v_y a * v_y b + v_z a * v_z b.

Definition V3_R (a : XYZVector) : double :=
  Double.sqrt (v_x a * v_x a + v_y a * v_y a + v_z a * v_z a).

Definition SetXYZ (x y z : double) : TVector3 := mkTV3 x y z.

Definition TV3_add (a b : TVector3) : TVector3 :=
  mkTV3 (fX a + fX b) (fY a + fY b) (fZ a + fZ b).

Definition TV3_Dot (a b : TVector3) : double :=
  fX a * fX b + fY a * fY b + fZ a * fZ b.

Definition TV3_Mag2 (a : TVector3) : double :=
  fX a * fX a + fY a * fY a + fZ a * fZ a.
End VectorOps.

(** reco::PFMET, of which the plugin reads the momentum. *)
Record PFMET : Type := mkMET { momentum : XYZVector }.

(** reco::PFJet; the plugin only hands it to the jet selection. *)
Record PFJet : Type := mkJet { p4 : XYZTLorentzVector }.

(** ** The razor variables (CalcMR and the arithmetic of CalcR) *)

Section RazorVariables.
Local Open Scope dbl_scope.

Definition CalcMR (ja jb : XYZTLorentzVector) : double :=
  if Pt ja <=? dbl_0_1 then dbl_m1 else
  let A := P ja in
  let B := P jb in
  let az := Pz ja in
  let bz := Pz jb in
  let jaT := SetXYZ (Px ja) (Py ja) dbl_0 in
  let jbT := SetXYZ (Px jb) (Py jb) dbl_0 in
  let ATBT := TV3_Mag2 (TV3_add jaT jbT) in
  let MR := Double.sqrt ((A + B) * (A + B) - (az + bz) * (az + bz) -
              (TV3_Dot jbT jbT - TV3_Dot jaT jaT) * (TV3_Dot jbT jbT - TV3_Dot jaT jaT)
                / TV3_Mag2 (TV3_add jaT jbT)) in
  let mybeta := (TV3_Dot jbT jbT - TV3_Dot jaT jaT) /
                Double.sqrt (ATBT * ((A + B) * (A + B) - (az + bz) * (az + bz))) in
  let mygamma := dbl_1 / Double.sqrt (dbl_1 - mybeta * mybeta) in
  MR * mygamma.

(** The local MTR of CalcR. *)
Definition MTR_of (ja jb : XYZTLorentzVector) (met : XYZVector) : double :=
  Double.sqrt (dbl_0_5 * (V3_R met * (Pt ja + Pt jb) - V3_Dot met (V3_add (Vect ja) (Vect jb)))).

(** [float(MTR)/float(MR)], handed back as a [double]. *)
Definition ratio_as_float (MTR MR : double) : double :=
  Single.to_double (Single.div (Single.of_double MTR) (Single.of_double MR)).
End RazorVariables.

(** ** What the host framework provides *)

(** The two functions of the host's mathematics that the plugin calls and
    that are not part of this source file: the azimuthal angle of a
    four-vector and the difference of two angles. *)
Class Azimuth : Type := {
  Phi : XYZTLorentzVector -> double;
  deltaPhi : double -> double -> double
}.

(** edm::Handle: valid with a product, or invalid. *)
Definition Handle (A : Type) : Type := option A.

Definition isValid {A : Type} (h : Handle A) : bool :=
  match h with Some _ => true | None => false end.

(** GenericTriggerEventFlag, as far as the plugin asks whether it is on. *)
Record GenericTriggerEventFlag : Type := mkFlag { on : bool }.

(** One event as [analyze] sees it: the three products it reads and the
    answers of the trigger flags to the three [accept] calls it can make.
    [accept] is host code; nothing in this file relates the two answers
    of the denominator flag, so they are kept apart. *)
Record Event : Type := mkEvent {
  metHandle : Handle (list PFMET);
  jetHandle : Handle (list PFJet);
  hemispheres : Handle (list XYZTLorentzVector);
  den_accept_first : bool;   (* den_genTriggerEventFlag_->accept at the top *)
  den_accept_second : bool;  (* den_genTriggerEventFlag_->accept before the fills *)
  num_accept : bool          (* num_genTriggerEventFlag_->accept *)
}.

(** The members the constructor reads from the configuration. The two
    trigger flags are created with [new] there, so they are never null. *)
Record Config : Type := mkConfig {
  folderName_ : string;
  rsq_binning_ : list double;
  mr_binning_ : list double;
  dphiR_binning_ : list double;
  num_genTriggerEventFlag_ : GenericTriggerEventFlag;
  den_genTriggerEventFlag_ : GenericTriggerEventFlag;
  metSelection_ : PFMET -> bool;
  jetSelection_ : PFJet -> bool;
  njets_ : nat;
  rsqCut_ : double;
  mrCut_ : double
}.

(** ** Histograms *)

Inductive Entry : Type :=
| Entry1 (x : double)       (* Fill(x) *)
| Entry2 (x y : double).    (* Fill(x, y) *)

(** What a histogram was booked with. The edges of a variable binning are
    handed over as an array of [float]. *)
Inductive Booking : Type :=
| Book1D (nbins : Z) (xmin xmax : double)
| Book1DVar (nbins : Z) (edges : list Single.t)
| BookProfile (nbinsX : Z) (xmin xmax ymin ymax : double)
| Book2D (nbinsX : Z) (xmin xmax : double) (nbinsY : Z) (ymin ymax : double)
| Book2DVar (nbinsX : Z) (edgesX : list Single.t) (nbinsY : Z) (edgesY : list Single.t).

(** A MonitorElement: where and how it was booked, its axis titles and
    the entries filled so far, the latest first. *)
Record MonitorElement : Type := mkME {
  me_folder : string;
  me_name : string;
  me_title : string;
  me_booking : Booking;
  me_axis1 : string;
  me_axis2 : string;
  me_entries : list Entry
}.

(** RazorME: two pointers, null until the histograms are booked. *)
Record RazorME : Type := mkRazorME {
  numerator : option MonitorElement;
  denominator : option MonitorElement
}.

Inductive Side : Type := Num | Den.

(** The four RazorME members of the plugin. *)
Inductive Member : Type := MR_ME | Rsq_ME | dPhiR_ME | MRVsRsq_ME.

(** The conditions under which [analyze] leaves, in the order of the
    source text. *)
Inductive Gate : Type :=
| DenominatorTrigger        (* line 141 *)
| MetCut                    (* line 147 *)
| JetCollectionSize         (* line 153 *)
| JetCount                  (* line 157 *)
| HemisphereValid           (* line 163 *)
| HemisphereNonEmpty        (* line 167 *)
| HemisphereSize            (* line 174 *)
| RazorCut                  (* line 194 *)
| DenominatorTriggerAgain   (* line 197 *)
| NumeratorTrigger.         (* line 213 *)

(** What a run of the plugin's code did, as recorded in the journal. *)
Inductive Obs : Type :=
| Checked (g : Gate) (pass : bool)
| LogError (category message : string) (size : option nat)
| CalledCalcMR (ja jb : XYZTLorentzVector)
| CalledCalcR (MR : double) (ja jb : XYZTLorentzVector)
| Computed (MR R Rsq dPhiR : double)   (* the locals once line 191 is done *)
| Filled (m : Member) (s : Side) (e : Entry)
| FolderSet (folder : string)
| Booked (m : Member) (s : Side) (me : MonitorElement)
| AxisTitled (m : Member) (s : Side) (title : string) (axis : Z)
| RunInitialised (s : Side).

(** The mutable state: the four histogram pairs and the booker's current
    folder. *)
Record World : Type := mkWorld {
  MR_ME_ : RazorME;
  Rsq_ME_ : RazorME;
  dPhiR_ME_ : RazorME;
  MRVsRsq_ME_ : RazorME;
  currentFolder : string
}.

Definition member (m : Member) (w : World) : RazorME :=
  match m with
  | MR_ME => MR_ME_ w
  | Rsq_ME => Rsq_ME_ w
  | dPhiR_ME => dPhiR_ME_ w
  | MRVsRsq_ME => MRVsRsq_ME_ w
  end.

Definition set_member (m : Member) (r : RazorME) (w : World) : World :=
  match m with
  | MR_ME => mkWorld r (Rsq_ME_ w) (dPhiR_ME_ w) (MRVsRsq_ME_ w) (currentFolder w)
  | Rsq_ME => mkWorld (MR_ME_ w) r (dPhiR_ME_ w) (MRVsRsq_ME_ w) (currentFolder w)
  | dPhiR_ME => mkWorld (MR_ME_ w) (Rsq_ME_ w) r (MRVsRsq_ME_ w) (currentFolder w)
  | MRVsRsq_ME => mkWorld (MR_ME_ w) (Rsq_ME_ w) (dPhiR_ME_ w) r (currentFolder w)
  end.

Definition side (s : Side) (r : RazorME) : option MonitorElement :=
  match s with Num => numerator r | Den => denominator r end.

Definition set_side (s : Side) (p : option MonitorElement) (r : RazorME) : RazorME :=
  match s with
  | Num => mkRazorME p (denominator r)
  | Den => mkRazorME (numerator r) p
  end.

Definition set_folder (f : string) (w : World) : World :=
  mkWorld (MR_ME_ w) (Rsq_ME_ w) (dPhiR_ME_ w) (MRVsRsq_ME_ w) f.

(** The state the constructor leaves: every pointer null. *)
Definition constructed : World :=
  let null := mkRazorME None None in
  mkWorld null null null null EmptyString.

(** ** The monad of the member functions *)

Inductive Result (A : Type) : Type :=
| Value (a : A)      (* ran to the end *)
| Returned           (* left through [return;] *)
| Aborted.           (* dereferenced an invalid handle or a null pointer,
                        or indexed a collection out of range *)
Arguments Value {A} a.
Arguments Returned {A}.
Arguments Aborted {A}.

(** One run of a piece of code: how it ended, the state it left and its
    journal, in program order. *)
Record Run (A : Type) : Type := mkRun {
  result : Result A;
  final : World;
  trace : list Obs
}.

Definition M (A : Type) : Type := World -> Run A.

Definition ret {A : Type} (a : A) : M A := fun w => mkRun (Value a) w [].

Definition bind {A B : Type} (m : M A) (f : A -> M B) : M B :=
  fun w =>
    match m w with
    | mkRun (Value a) w' t =>
        match f a w' with
        | mkRun r w'' t' => mkRun r w'' (t ++ t')
        end
    | mkRun Returned w' t => mkRun Returned w' t
    | mkRun Aborted w' t => mkRun Aborted w' t
    end.

Definition exit {A : Type} : M A := fun w => mkRun Returned w [].
Definition abort {A : Type} : M A := fun w => mkRun Aborted w [].
Definition note (o : Obs) : M unit := fun w => mkRun (Value tt) w [o].

Declare Scope monad_scope.
Delimit Scope monad_scope with monad.
Notation "x <- m ;; k" := (bind m (fun x => k))
  (at level 61, m at next level, right associativity) : monad_scope.
Notation "m ;; k" := (bind m (fun _ => k))
  (at level 61, right associativity) : monad_scope.

Section HostCalls.
Local Open Scope monad_scope.

(** [if (c) a else b] and [if (c) a] on statements. *)
Definition branch {A : Type} (c : bool) (a b : M A) : M A :=
  fun w => if c then a w else b w.

Definition when (c : bool) (a : M unit) : M unit := branch c a (ret tt).

(** [*h] and [h->] on a handle. *)
Definition deref {A : Type} (h : Handle A) : M A :=
  fun w =>
    match h with
    | Some a => mkRun (Value a) w []
    | None => mkRun Aborted w []
    end.

(** [c.front()]. *)
Definition front {A : Type} (c : list A) : M A :=
  fun w =>
    match c with
    | a :: _ => mkRun (Value a) w []
    | [] => mkRun Aborted w []
    end.

(** [c.at(i)]. *)
Definition at_ {A : Type} (c : list A) (i : nat) : M A :=
  fun w =>
    match nth_error c i with
    | Some a => mkRun (Value a) w []
    | None => mkRun Aborted w []
    end.

(** [if (c) return;] with what is done just before leaving. *)
Definition return_if (g : Gate) (c : bool) (before : M unit) : M unit :=
  note (Checked g (negb c)) ;;
  when c (before ;; exit).

(** [me->Fill(...)] through one of the eight pointers. *)
Definition Fill (m : Member) (s : Side) (e : Entry) : M unit :=
  fun w =>
    match side s (member m w) with
    | None => mkRun Aborted w []
    | Some me =>
        let me' := mkME (me_folder me) (me_name me) (me_title me) (me_booking me)
                        (me_axis1 me) (me_axis2 me) (e :: me_entries me) in
        mkRun (Value tt)
              (set_member m (set_side s (Some me') (member m w)) w)
              [Filled m s e]
    end.
End HostCalls.

(** ** The member functions of RazorMonitor *)

Section Plugin.
Context {host : Azimuth}.
Variable cfg : Config.
Local Open Scope string_scope.
Local Open Scope monad_scope.

(** [s.c_str()] read back as a string: it ends at the first NUL. *)
Fixpoint c_str (s : string) : string :=
  match s with
  | EmptyString => EmptyString
  | String c r =>
      if Ascii.eqb c Ascii.zero then EmptyString else String c (c_str r)
  end.

(** The conversion of a [size_t] to [int]. *)
Definition to_int (z : Z) : Z := ((z + 2 ^ 31) mod 2 ^ 32 - 2 ^ 31)%Z.

(** [int nbins = binning.size()-1;] the subtraction is on [size_t], so an
    empty list of edges gives -1. *)
Definition nbins_of (binning : list double) : Z :=
  to_int ((Z.of_nat (List.length binning) - 1) mod 2 ^ 64)%Z.

(** [std::vector<float> fbinning(binning.begin(),binning.end());] *)
Definition fbinning_of (binning : list double) : list Single.t :=
  map Single.of_double binning.

(** The booker's calls: a fresh histogram in the current folder. *)
Definition book (m : Member) (s : Side) (name title : string) (b : Booking) : M unit :=
  fun w =>
    let me := mkME (currentFolder w) name title b EmptyString EmptyString [] in
    mkRun (Value tt)
          (set_member m (set_side s (Some me) (member m w)) w)
          [Booked m s me].

Definition setCurrentFolder (f : string) : M unit :=
  fun w => mkRun (Value tt) (set_folder f w) [FolderSet f].

(** [me->setAxisTitle(title, axis)] through one of the pointers. The
    plugin titles the axes 1 and 2 only; a title for another axis is
    journalled and not kept. *)
Definition setAxisTitle (m : Member) (s : Side) (title : string) (axis : Z) : M unit :=
  fun w =>
    match side s (member m w) with
    | None => mkRun Aborted w []
    | Some me =>
        let me' :=
          if (axis =? 1)%Z then
            mkME (me_folder me) (me_name me) (me_title me) (me_booking me)
                 title (me_axis2 me) (me_entries me)
          else if (axis =? 2)%Z then
            mkME (me_folder me) (me_name me) (me_title me) (me_booking me)
                 (me_axis1 me) title (me_entries me)
          else me in
        mkRun (Value tt)
              (set_member m (set_side s (Some me') (member m w)) w)
              [AxisTitled m s title axis]
    end.

Definition setMETitle (me : Member) (titleX titleY : string) : M unit :=
  setAxisTitle me Num titleX 1 ;;
  setAxisTitle me Num titleY 2 ;;
  setAxisTitle me Den titleX 1 ;;
  setAxisTitle me Den titleY 2.

(** The five overloads of bookME. *)
Definition bookME_1D (me : Member) (histname histtitle : string)
           (nbins : Z) (min max : double) : M unit :=
  book me Num (histname ++ "_numerator") (histtitle ++ " (numerator)")
       (Book1D nbins min max) ;;
  book me Den (histname ++ "_denominator") (histtitle ++ " (denominator)")
       (Book1D nbins min max).

Definition bookME_1DVar (me : Member) (histname histtitle : string)
           (binning : list double) : M unit :=
  let nbins := nbins_of binning in
  let arr := fbinning_of binning in
  book me Num (histname ++ "_numerator") (histtitle ++ " (numerator)")
       (Book1DVar nbins arr) ;;
  book me Den (histname ++ "_denominator") (histtitle ++ " (denominator)")
       (Book1DVar nbins arr).

Definition bookME_Profile (me : Member) (histname histtitle : string)
           (nbinsX : Z) (xmin xmax ymin ymax : double) : M unit :=
  book me Num (histname ++ "_numerator") (histtitle ++ " (numerator)")
       (BookProfile nbinsX xmin xmax ymin ymax) ;;
  book me Den (histname ++ "_denominator") (histtitle ++ " (denominator)")
       (BookProfile nbinsX xmin xmax ymin ymax).

Definition bookME_2D (me : Member) (histname histtitle : string)
           (nbinsX : Z) (xmin xmax : double) (nbinsY : Z) (ymin ymax : double) : M unit :=
  book me Num (histname ++ "_numerator") (histtitle ++ " (numerator)")
       (Book2D nbinsX xmin xmax nbinsY ymin ymax) ;;
  book me Den (histname ++ "_denominator") (histtitle ++ " (denominator)")
       (Book2D nbinsX xmin xmax nbinsY ymin ymax).

Definition bookME_2DVar (me : Member) (histname histtitle : string)
           (binningX binningY : list double) : M unit :=
  let nbinsX := nbins_of binningX in
  let arrX := fbinning_of binningX in
  let nbinsY := nbins_of binningY in
  let arrY := fbinning_of binningY in
  book me Num (histname ++ "_numerator") (histtitle ++ " (numerator)")
       (Book2DVar nbinsX arrX nbinsY arrY) ;;
  book me Den (histname ++ "_denominator") (histtitle ++ " (denominator)")
       (Book2DVar nbinsX arrX nbinsY arrY).

Definition initRun (s : Side) : M unit := note (RunInitialised s).

Definition bookHistograms : M unit :=
  let currentFolder := folderName_ cfg in
  setCurrentFolder (c_str currentFolder) ;;
  (* 1D hist, MR *)
  bookME_1DVar MR_ME "MR" "PF MR" (mr_binning_ cfg) ;;
  setMETitle MR_ME "PF M_{R} [GeV]" "events / [GeV]" ;;
  (* 1D hist, Rsq *)
  bookME_1DVar Rsq_ME "Rsq" "PF Rsq" (rsq_binning_ cfg) ;;
  setMETitle Rsq_ME "PF R^{2}" "events" ;;
  (* 1D hist, dPhiR *)
  bookME_1DVar dPhiR_ME "dPhiR" "dPhiR" (dphiR_binning_ cfg) ;;
  setMETitle dPhiR_ME "dPhi_{R}" "events" ;;
  (* 2D hist, MR & Rsq *)
  bookME_2DVar MRVsRsq_ME "MRVsRsq" "PF MR vs PF Rsq" (mr_binning_ cfg) (rsq_binning_ cfg) ;;
  setMETitle MRVsRsq_ME "M_{R} [GeV]" "R^{2}" ;;
  (* Initialize the GenericTriggerEventFlag *)
  when (on (num_genTriggerEventFlag_ cfg)) (initRun Num) ;;
  when (on (den_genTriggerEventFlag_ cfg)) (initRun Den).

Definition CalcR (MR : double) (ja jb : XYZTLorentzVector)
           (inputMet : Handle (list PFMET)) : M double :=
  c <- deref inputMet ;;
  m <- front c ;;
  let met := momentum m in
  let MTR := MTR_of ja jb met in
  ret (ratio_as_float MTR MR).

(** The four locals MR, R, Rsq and dPhiR of [analyze]. *)
Record RazorVars : Type := mkVars {
  var_MR : double;
  var_R : double;
  var_Rsq : double;
  var_dPhiR : double
}.

(** Lines 179 to 191 of [analyze]: the razor variables, with the
    hemispheres pT-ordered. The unqualified [abs] is std::abs on a
    [double]: the file names [vector] and [endl] unqualified too, so
    namespace std is in scope. *)
Definition razorVariables (hs : list XYZTLorentzVector)
           (metH : Handle (list PFMET)) : M RazorVars :=
  h1 <- at_ hs 1 ;;
  h0 <- at_ hs 0 ;;
  MR_R <- branch (Pt h1 >? Pt h0)%dbl
            (note (CalledCalcMR h1 h0) ;;
             let MR := CalcMR h1 h0 in
             note (CalledCalcR MR h1 h0) ;;
             R <- CalcR MR h1 h0 metH ;;
             ret (MR, R))
            (note (CalledCalcMR h0 h1) ;;
             let MR := CalcMR h0 h1 in
             note (CalledCalcR MR h0 h1) ;;
             R <- CalcR MR h0 h1 metH ;;
             ret (MR, R)) ;;
  let MR := fst MR_R in
  let R := snd MR_R in
  let Rsq := (R * R)%dbl in
  let dPhiR := Double.abs (deltaPhi (Phi h0) (Phi h1)) in
  note (Computed MR R Rsq dPhiR) ;;
  ret (mkVars MR R Rsq dPhiR).

(** The two messages of [analyze], logged under DQM_HLT_Razor. *)
Definition too_many_jets : string :=
  "Cannot calculate M_R and R^2 because there are too many jets! (trigger passed automatically without forming the hemispheres)".
Definition invalid_hemispheres : string :=
  "Invalid hemisphere collection!  hemispheres->size() = ".

Definition trigger_rejects (flag : GenericTriggerEventFlag) (accept : bool) : bool :=
  on flag && negb accept.

Definition analyze (iEvent : Event) : M unit :=
  (* Filter out events if Trigger Filtering is requested *)
  return_if DenominatorTrigger
    (trigger_rejects (den_genTriggerEventFlag_ cfg) (den_accept_first iEvent)) (ret tt) ;;
  (* met collection *)
  mets <- deref (metHandle iEvent) ;;
  pfmet <- front mets ;;
  return_if MetCut (negb (metSelection_ cfg pfmet)) (ret tt) ;;
  (* jet collection *)
  jetc <- deref (jetHandle iEvent) ;;
  return_if JetCollectionSize (List.length jetc <? njets_ cfg)%nat (ret tt) ;;
  let jets := filter (jetSelection_ cfg) jetc in
  return_if JetCount (List.length jets <? njets_ cfg)%nat (ret tt) ;;
  (* razor hemisphere clustering from previous step *)
  return_if HemisphereValid (negb (isValid (hemispheres iEvent))) (ret tt) ;;
  hs <- deref (hemispheres iEvent) ;;
  let size := List.length hs in
  return_if HemisphereNonEmpty (size =? 0)%nat
    (note (LogError "DQM_HLT_Razor" too_many_jets None)) ;;
  return_if HemisphereSize
    (negb (size =? 0)%nat && negb (size =? 2)%nat && negb (size =? 5)%nat
     && negb (size =? 10)%nat)
    (note (LogError "DQM_HLT_Razor" invalid_hemispheres (Some size))) ;;
  (* calculate razor variables, with hemispheres pT-ordered *)
  v <- razorVariables hs (metHandle iEvent) ;;
  let MR := var_MR v in
  let Rsq := var_Rsq v in
  let dPhiR := var_dPhiR v in
  (* apply offline selection cuts *)
  return_if RazorCut ((Rsq <? rsqCut_ cfg)%dbl && (MR <? mrCut_ cfg)%dbl) (ret tt) ;;
  (* applying selection for denominator *)
  return_if DenominatorTriggerAgain
    (trigger_rejects (den_genTriggerEventFlag_ cfg) (den_accept_second iEvent)) (ret tt) ;;
  (* filling histograms (denominator) *)
  when (Rsq >=? rsqCut_ cfg)%dbl (Fill MR_ME Den (Entry1 MR)) ;;
  when (MR >=? mrCut_ cfg)%dbl (Fill Rsq_ME Den (Entry1 Rsq)) ;;
  Fill dPhiR_ME Den (Entry1 dPhiR) ;;
  Fill MRVsRsq_ME Den (Entry2 MR Rsq) ;;
  (* applying selection for numerator *)
  return_if NumeratorTrigger
    (trigger_rejects (num_genTriggerEventFlag_ cfg) (num_accept iEvent)) (ret tt) ;;
  (* filling histograms (numerator) *)
  when (Rsq >=? rsqCut_ cfg)%dbl (Fill MR_ME Num (Entry1 MR)) ;;
  when (MR >=? mrCut_ cfg)%dbl (Fill Rsq_ME Num (Entry1 Rsq)) ;;
  Fill dPhiR_ME Num (Entry1 dPhiR) ;;
  Fill MRVsRsq_ME Num (Entry2 MR Rsq).
End Plugin.

(** ** Reading a journal *)

(** The gates in the order of the source text. *)
Definition gate_order : list Gate :=
  [DenominatorTrigger; MetCut; JetCollectionSize; JetCount; HemisphereValid;
   HemisphereNonEmpty; HemisphereSize; RazorCut; DenominatorTriggerAgain;
   NumeratorTrigger].

(** The gates a journal checked, in the order it checked them. *)
Fixpoint gates_of (t : list Obs) : list Gate :=
  match t with
  | [] => []
  | Checked g _ :: r => g :: gates_of r
  | _ :: r => gates_of r
  end.

(** The nine steps of the event selection: denominator trigger (1), MET
    cut (2), jet count (3), hemisphere validity (4), razor variables and
    razor cut (5), denominator trigger again (6), denominator fills (7),
    numerator trigger (8), numerator fills (9). Booking is no step of
    [analyze] (0). *)
Definition step_of_gate (g : Gate) : nat :=
  match g with
  | DenominatorTrigger => 1
  | MetCut => 2
  | JetCollectionSize | JetCount => 3
  | HemisphereValid | HemisphereNonEmpty | HemisphereSize => 4
  | RazorCut => 5
  | DenominatorTriggerAgain => 6
  | NumeratorTrigger => 8
  end.

Definition step (o : Obs) : nat :=
  match o with
  | Checked g _ => step_of_gate g
  | LogError _ _ _ => 4
  | CalledCalcMR _ _ | CalledCalcR _ _ _ | Computed _ _ _ _ => 5
  | Filled _ Den _ => 7
  | Filled _ Num _ => 9
  | FolderSet _ | Booked _ _ _ | AxisTitled _ _ _ _ | RunInitialised _ => 0
  end.

Definition is_log (o : Obs) : bool :=
  match o with LogError _ _ _ => true | _ => false end.

Definition is_fill (o : Obs) : bool :=
  match o with Filled _ _ _ => true | _ => false end.

Definition Side_eqb (a b : Side) : bool :=
  match a, b with
  | Num, Num | Den, Den => true
  | _, _ => false
  end.

Definition is_fill_of (s : Side) (o : Obs) : bool :=
  match o with
  | Filled _ s' _ => Side_eqb s s'
  | _ => false
  end.

(** All eight pointers are set. *)
Definition booked (w : World) : Prop :=
  forall (m : Member) (s : Side), side s (member m w) <> None.

(** The entries of one histogram, the latest first; none through a null
    pointer. *)
Definition entries (m : Member) (s : Side) (w : World) : list Entry :=
  match side s (member m w) with
  | Some me => me_entries me
  | None => []
  end.

(** The dimension of a booked histogram. *)
Definition dimension (b : Booking) : nat :=
  match b with
  | Book1D _ _ _ | Book1DVar _ _ | BookProfile _ _ _ _ _ => 1
  | Book2D _ _ _ _ _ _ | Book2DVar _ _ _ _ => 2
  end.

(** The members a journal booked on one side with histograms of a given
    dimension. *)
Fixpoint booked_members (dim : nat) (s : Side) (t : list Obs) : list Member :=
  match t with
  | [] => []
  | Booked m s' me :: r =>
      if Side_eqb s s' && (dimension (me_booking me) =? dim)%nat
      then m :: booked_members dim s r
      else booked_members dim s r
  | _ :: r => booked_members dim s r
  end.

(** The checks a journal made, each with its outcome, in the order it
    made them. *)
Fixpoint checks_of (t : list Obs) : list (Gate * bool) :=
  match t with
  | [] => []
  | Checked g pass :: r => (g, pass) :: checks_of r
  | _ :: r => checks_of r
  end.

(** The gates as the specification words them: whether an event gets through a
    gate, read off the event alone. The denominator trigger lets an
    event through unless the flag is on and does not accept; the MET cut
    when the first MET satisfies the MET selection; the jet count when
    the collection, and then the selected jets, number at least njets_;
    hemisphere validity when the handle is valid, the collection is not
    empty and its size is 2, 5 or 10; the razor cut unless Rsq and MR
    are both below their cuts, MR and R taken with the hemisphere of the
    greater pT first. [None] where a product the gate reads is not
    there. To be compared with what [analyze] does. *)
Section Gates.
Variable cfg : Config.
Variable ev : Event.
Local Open Scope dbl_scope.

Definition razor_cut_passes : option bool :=
  match metHandle ev, hemispheres ev with
  | Some (pfmet :: _), Some (h0 :: h1 :: _) =>
      let (ja, jb) := if Pt h1 >? Pt h0 then (h1, h0) else (h0, h1) in
      let MR := CalcMR ja jb in
      let R := ratio_as_float (MTR_of ja jb (momentum pfmet)) MR in
      let Rsq := R * R in
      Some (negb ((Rsq <? rsqCut_ cfg) && (MR <? mrCut_ cfg)))
  | _, _ => None
  end.

Definition passes (g : Gate) : option bool :=
  match g with
  | DenominatorTrigger =>
      Some (negb (on (den_genTriggerEventFlag_ cfg)) || den_accept_first ev)
  | MetCut =>
      match metHandle ev with
      | Some (pfmet :: _) => Some (metSelection_ cfg pfmet)
      | _ => None
      end
  | JetCollectionSize =>
      match jetHandle ev with
      | Some jetc => Some (njets_ cfg <=? List.length jetc)%nat
      | None => None
      end
  | JetCount =>
      match jetHandle ev with
      | Some jetc =>
          Some (njets_ cfg <=? List.length (filter (jetSelection_ cfg) jetc))%nat
      | None => None
      end
  | HemisphereValid => Some (isValid (hemispheres ev))
  | HemisphereNonEmpty =>
      match hemispheres ev with
      | Some hs => Some (negb (List.length hs =? 0)%nat)
      | None => None
      end
  | HemisphereSize =>
      match hemispheres ev with
      | Some hs => Some (existsb (Nat.eqb (List.length hs)) [0; 2; 5; 10])
      | None => None
      end
  | RazorCut => razor_cut_passes
  | DenominatorTriggerAgain =>
      Some (negb (on (den_genTriggerEventFlag_ cfg)) || den_accept_second ev)
  | NumeratorTrigger =>
      Some (negb (on (num_genTriggerEventFlag_ cfg)) || num_accept ev)
  end.

(** The checks that are due on the event: the gates in the given order,
    up to and with the first one that does not let the event through, or
    up to the first one that cannot be evaluated. *)
Fixpoint checks_due (gates : list Gate) : list (Gate * bool) :=
  match gates with
  | [] => []
  | g :: rest =>
      match passes g with
      | Some true => (g, true) :: checks_due rest
      | Some false => [(g, false)]
      | None => []
      end
  end.
End Gates.

(** A check that failed, that is, one that made [analyze] leave. *)
Definition is_failure (o : Obs) : bool :=
  match o with Checked _ false => true | _ => false end.

(** After a failed check a journal holds nothing but log messages. *)
Fixpoint stops_at_failure (t : list Obs) : bool :=
  match t with
  | [] => true
  | Checked _ false :: r => forallb is_log r
  | _ :: r => stops_at_failure r
  end.

Fixpoint nondecreasing (l : list nat) : bool :=
  match l with
  | [] => true
  | a :: r => forallb (Nat.leb a) r && nondecreasing r
  end.

(** The fills as the specification words them: what a histogram pair is filled
    with on an event that reaches the fills, if with anything. MR is
    filled when Rsq is at or above its cut, Rsq when MR is, dPhiR and
    MRVsRsq always. To be compared with what [analyze] does. *)
Definition due (cfg : Config) (MR Rsq dPhiR : double) (m : Member) : option Entry :=
  match m with
  | MR_ME => if (Rsq >=? rsqCut_ cfg)%dbl then Some (Entry1 MR) else None
  | Rsq_ME => if (MR >=? mrCut_ cfg)%dbl then Some (Entry1 Rsq) else None
  | dPhiR_ME => Some (Entry1 dPhiR)
  | MRVsRsq_ME => Some (Entry2 MR Rsq)
  end.

(** What booking one pair and titling its axes writes to the journal. *)
Definition pair_journal (m : Member) (folder name title : string) (b : Booking)
           (titleX titleY : string) : list Obs :=
  [Booked m Num (mkME folder (name ++ "_numerator") (title ++ " (numerator)") b
                      EmptyString EmptyString []);
   Booked m Den (mkME folder (name ++ "_denominator") (title ++ " (denominator)") b
                      EmptyString EmptyString []);
   AxisTitled m Num titleX 1; AxisTitled m Num titleY 2;
   AxisTitled m Den titleX 1; AxisTitled m Den titleY 2].

(** A histogram as it is once booked and titled. *)
Definition titled (folder name title : string) (b : Booking)
           (titleX titleY : string) : MonitorElement :=
  mkME folder name title b titleX titleY [].

(** The order of the arguments as the specification words it: in a call of CalcMR
    or CalcR the second vector has the higher transverse momentum, that is,
    the first one has no more of it. To be compared with what [analyze]
    does. *)
Definition higher_pt_second (o : Obs) : bool :=
  match o with
  | CalledCalcMR ja jb | CalledCalcR _ ja jb => (Pt ja <=? Pt jb)%dbl
  | _ => true
  end.


(** ** Reading the histograms *)

Definition Member_eqb (a b : Member) : bool :=
  match a, b with
  | MR_ME, MR_ME | Rsq_ME, Rsq_ME | dPhiR_ME, dPhiR_ME
  | MRVsRsq_ME, MRVsRsq_ME => true
  | _, _ => false
  end.

(** The entries a journal filled into one histogram, in program order. *)
Fixpoint fills_of (m : Member) (s : Side) (t : list Obs) : list Entry :=
  match t with
  | [] => []
  | Filled m' s' e :: r =>
      if Member_eqb m m' && Side_eqb s s' then e :: fills_of m s r
      else fills_of m s r
  | _ :: r => fills_of m s r
  end.

(** Two histograms booked alike: all but the entries agree. *)
Definition same_booking (a b : MonitorElement) : Prop :=
  me_folder a = me_folder b /\ me_name a = me_name b /\
  me_title a = me_title b /\ me_booking a = me_booking b /\
  me_axis1 a = me_axis1 b /\ me_axis2 a = me_axis2 b.

(** [w'] is [w] grown by the fills of the journal [t]: the current folder
    and the null pointers are as they were, and every histogram is booked
    as it was and holds the entries the journal filled on top of the ones
    it held. *)
Definition grown (w w' : World) (t : list Obs) : Prop :=
  currentFolder w' = currentFolder w /\
  forall m s,
    match side s (member m w) with
    | None => side s (member m w') = None /\ fills_of m s t = []
    | Some me =>
        exists me',
          side s (member m w') = Some me' /\ same_booking me me' /\
          me_entries me' = rev (fills_of m s t) ++ me_entries me
    end.

(** A piece of code that only ever grows the histograms. *)
Definition appends {A : Type} (c : M A) : Prop :=
  forall w, grown w (final (c w)) (trace (c w)).

(** The event with elements 0 and 1 of the hemisphere collection stored
    the other way round. *)
Definition swap_hemispheres (ev : Event) : Event :=
  mkEvent (metHandle ev) (jetHandle ev)
          (match hemispheres ev with
           | Some (a :: b :: rest) => Some (b :: a :: rest)
           | h => h
           end)
          (den_accept_first ev) (den_accept_second ev) (num_accept ev).

(** ** Sample data

    The defaults of [fillDescriptions] and a few events, used to run the
    definitions above on concrete inputs. *)

Module Sample.
Local Open Scope dbl_scope.

Definition int (n : Z) : double := Double.of_Z n.
(** The decimal literal n/d, rounded to the nearest [double]. *)
Definition dec (n d : Z) : double := Double.of_Z n / Double.of_Z d.

(** The azimuth atan2(py, px) of a vector whose py is +0, as the C
    library has it: +0 for a px that is positive or +0, M_PI for a px
    that is negative or -0, and a NaN as soon as px or py is one. The
    sample hemispheres all have a py of +0. *)
Definition Phi_in_xz_plane (v : XYZTLorentzVector) : double :=
  if Double.is_nan (Px v) || Double.is_nan (Py v) then S754_nan
  else match Px v with
       | S754_zero true => M_PI
       | _ => if Px v <? dbl_0 then M_PI else dbl_0
       end.

(** The difference of two angles taken from [-pi, pi], brought back by
    one turn when it left (-pi, pi]. *)
Definition deltaPhi_one_turn (phi1 phi2 : double) : double :=
  let result := phi1 - phi2 in
  if result >? M_PI then result - int 2 * M_PI
  else if result <=? Double.opp M_PI then result + int 2 * M_PI
  else result.

Definition azimuth : Azimuth :=
  {| Phi := Phi_in_xz_plane; deltaPhi := deltaPhi_one_turn |}.

Definition mrbins : list double :=
  map int [0; 100; 200; 300; 400; 500; 575; 650; 750; 900; 1200; 1600; 2500; 4000]%Z.
Definition rsqbins : list double :=
  map (fun n => dec n 100) [0; 5; 10; 15; 20; 25; 30; 41; 52; 64; 80; 150]%Z.
Definition dphirbins : list double :=
  map (fun n => dec n 10) [0; 5; 10; 15; 20; 25; 28; 30; 32]%Z.

(** "pt > 0" on the MET and "pt > 80" on a jet. *)
Definition met_pt_positive (m : PFMET) : bool :=
  let v := momentum m in
  Double.sqrt (v_x v * v_x v + v_y v * v_y v) >? dbl_0.
Definition jet_pt_above_80 (j : PFJet) : bool := Pt (p4 j) >? int 80.

Definition config : Config :=
  {| folderName_ := "HLT/SUSY/Razor";
     rsq_binning_ := rsqbins;
     mr_binning_ := mrbins;
     dphiR_binning_ := dphirbins;
     num_genTriggerEventFlag_ := mkFlag true;
     den_genTriggerEventFlag_ := mkFlag true;
     metSelection_ := met_pt_positive;
     jetSelection_ := jet_pt_above_80;
     njets_ := 2;
     rsqCut_ := dec 15 100;
     mrCut_ := int 300 |}.

Definition lv (px py pz e : Z) : XYZTLorentzVector :=
  mkLV (int px) (int py) (int pz) (int e).

(** Two hemispheres back to back in the transverse plane. *)
Definition hemi0 : XYZTLorentzVector := lv 300 0 100 320.
Definition hemi1 : XYZTLorentzVector := lv (-200) 0 (-50) 210.
Definition met0 : PFMET := mkMET (mkV3 (int (-100)) (int 0) (int 0)).
Definition jets0 : list PFJet := [mkJet hemi0; mkJet hemi1].

(** An event both trigger flags accept. *)
Definition event : Event :=
  {| metHandle := Some [met0];
     jetHandle := Some jets0;
     hemispheres := Some [hemi0; hemi1];
     den_accept_first := true;
     den_accept_second := true;
     num_accept := true |}.

(** The same event with the hemispheres stored in the other order. *)
Definition event_swapped : Event :=
  {| metHandle := Some [met0];
     jetHandle := Some jets0;
     hemispheres := Some [hemi1; hemi0];
     den_accept_first := true;
     den_accept_second := true;
     num_accept := true |}.

(** The same event, rejected by the numerator trigger only. *)
Definition event_num_rejected : Event :=
  {| metHandle := Some [met0];
     jetHandle := Some jets0;
     hemispheres := Some [hemi0; hemi1];
     den_accept_first := true;
     den_accept_second := true;
     num_accept := false |}.

(** Two hemispheres along the beam, with a transverse momentum of 1/16. *)
Definition hemi_soft0 : XYZTLorentzVector :=
  mkLV (dec 1 16) (int 0) (int 500) (int 500).
Definition hemi_soft1 : XYZTLorentzVector :=
  mkLV (dec (-1) 16) (int 0) (int (-400)) (int 400).
Definition event_soft : Event :=
  {| metHandle := Some [met0];
     jetHandle := Some jets0;
     hemispheres := Some [hemi_soft0; hemi_soft1];
     den_accept_first := true;
     den_accept_second := true;
     num_accept := true |}.

(** The same event without the hemisphere product. *)
Definition event_no_hemispheres : Event :=
  {| metHandle := Some [met0];
     jetHandle := Some jets0;
     hemispheres := None;
     den_accept_first := true;
     den_accept_second := true;
     num_accept := true |}.

(** The histograms as [bookHistograms] leaves them on the defaults. *)
Definition booked_world : World :=
  final (bookHistograms config constructed).

(** Three hemispheres: a size the plugin refuses. *)
Definition event_three_hemispheres : Event :=
  {| metHandle := Some [met0];
     jetHandle := Some jets0;
     hemispheres := Some [hemi0; hemi1; hemi1];
     den_accept_first := true;
     den_accept_second := true;
     num_accept := true |}.

(** A hemisphere whose px is not a number. *)
Definition hemi_nan : XYZTLorentzVector :=
  mkLV S754_nan (int 0) (int 100) (int 320).
Definition event_nan : Event :=
  {| metHandle := Some [met0];
     jetHandle := Some jets0;
     hemispheres := Some [hemi_nan; hemi1];
     den_accept_first := true;
     den_accept_second := true;
     num_accept := true |}.

(** The defaults with the cut on Rsq switched off. *)
Definition config_without_rsq_cut : Config :=
  {| folderName_ := "HLT/SUSY/Razor";
     rsq_binning_ := rsqbins;
     mr_binning_ := mrbins;
     dphiR_binning_ := dphirbins;
     num_genTriggerEventFlag_ := mkFlag true;
     den_genTriggerEventFlag_ := mkFlag true;
     metSelection_ := met_pt_positive;
     jetSelection_ := jet_pt_above_80;
     njets_ := 2;
     rsqCut_ := int 0;
     mrCut_ := int 1000 |}.

(** [analyze] on the sample events, after booking. *)
Definition run (ev : Event) : Run unit :=
  analyze (host := azimuth) config ev booked_world.

(** The razor variables of [event]. *)
Definition MR0 : double := CalcMR hemi0 hemi1.
Definition MTR0 : double := MTR_of hemi0 hemi1 (momentum met0).
Definition R0 : double := ratio_as_float MTR0 MR0.
Definition dPhiR0 : double :=
  Double.abs (deltaPhi_one_turn (Phi_in_xz_plane hemi0) (Phi_in_xz_plane hemi1)).
End Sample.

(** * Properties *)

(** ** Comparisons of IEEE-754 numbers *)

Section FloatFacts.
Local Open Scope dbl_scope.

Lemma SFcompare_antisym (a b : spec_float) :
  SFcompare b a = option_map CompOpp (SFcompare a b).
Proof.
  destruct a as [sa | sa | | sa ma ea], b as [sb | sb | | sb mb eb];
    cbn [SFcompare option_map];
    try (destruct sa); try (destruct sb); try reflexivity;
    rewrite (Z.compare_antisym ea eb);
    destruct (ea ?= eb)%Z; cbn [CompOpp]; try reflexivity;
    rewrite (Pos.compare_cont_antisym ma mb Eq); cbn [CompOpp];
    reflexivity.
Qed.

Lemma SFcompare_opp (a b : spec_float) :
  SFcompare (SFopp a) (SFopp b) = SFcompare b a.
Proof.
  destruct a as [sa | sa | | sa ma ea], b as [sb | sb | | sb mb eb];
    cbn [SFcompare SFopp negb];
    try (destruct sa); try (destruct sb); cbn [negb]; try reflexivity;
    rewrite (Z.compare_antisym ea eb);
    destruct (ea ?= eb)%Z; cbn [CompOpp]; try reflexivity;
    first [ rewrite (Pos.compare_cont_antisym ma mb Eq)
          | rewrite (Pos.compare_cont_antisym mb ma Eq) ];
    reflexivity.
Qed.

(** [a < b] excludes [b < a]. *)
Lemma ltb_asym (a b : double) : (a <? b) = true -> (b <? a) = false.
Proof.
  unfold Double.ltb, SFltb. rewrite (SFcompare_antisym a b).
  destruct (SFcompare a b) as [[ | | ] | ]; cbn; congruence.
Qed.

Lemma gtb_asym (a b : double) : (a >? b) = true -> (b >? a) = false.
Proof. unfold Double.gtb. apply ltb_asym. Qed.

(** [a >= b] excludes [a < b]. *)
Lemma geb_not_ltb (a b : double) : (a >=? b) = true -> (a <? b) = false.
Proof.
  unfold Double.geb, Double.ltb, SFleb, SFltb. rewrite (SFcompare_antisym b a).
  destruct (SFcompare b a) as [[ | | ] | ]; cbn; congruence.
Qed.

(** An event that is at or above one of the two cuts is not below
    both. *)
Lemma above_one_cut (Rsq MR rsqCut mrCut : double) :
  (Rsq >=? rsqCut) = true \/ (MR >=? mrCut) = true ->
  (Rsq <? rsqCut) && (MR <? mrCut) = false.
Proof.
  intros [H | H]; apply geb_not_ltb in H; rewrite H.
  - reflexivity.
  - apply andb_false_r.
Qed.

Lemma SFopp_involutive (a : spec_float) : SFopp (SFopp a) = a.
Proof. destruct a; cbn; now rewrite ?negb_involutive. Qed.

(** The absolute value is the number itself or its opposite. *)
Lemma abs_cases (x : double) :
  Double.abs x = x \/ Double.abs x = Double.opp x.
Proof.
  destruct x as [[ | ] | [ | ] | | [ | ] m e]; cbn; auto.
Qed.

Lemma abs_nonneg (x : double) :
  Double.is_nan x = false -> (dbl_0 <=? Double.abs x) = true.
Proof.
  destruct x as [s | s | | s m e]; cbn; intros H; try reflexivity.
  discriminate H.
Qed.

Lemma leb_not_nan (a b : double) :
  (a <=? b) = true -> Double.is_nan a = false /\ Double.is_nan b = false.
Proof.
  destruct a, b; cbn; intros H; try discriminate H; auto.
Qed.

(** A number between [-p] and [p] has its absolute value between 0
    and [p]. *)
Lemma abs_within (p x : double) :
  (Double.opp p <=? x) = true -> (x <=? p) = true ->
  (dbl_0 <=? Double.abs x) = true /\ (Double.abs x <=? p) = true.
Proof.
  intros Hlo Hhi. split.
  - apply abs_nonneg. now destruct (leb_not_nan _ _ Hhi).
  - destruct (abs_cases x) as [-> | ->]; [exact Hhi | ].
    unfold Double.leb, SFleb, Double.opp in *.
    rewrite <- (SFopp_involutive p) at 1.
    now rewrite SFcompare_opp.
Qed.


End FloatFacts.

(** ** Journals *)

Section JournalFacts.
Lemma nondecreasing_sorted (l : list nat) :
  nondecreasing l = true -> StronglySorted le l.
Proof.
  induction l as [ | a l IH]; cbn [nondecreasing]; intros H.
  - constructor.
  - apply andb_true_iff in H. destruct H as [Ha Hl].
    constructor; [now apply IH | ].
    rewrite forallb_forall in Ha. apply Forall_forall.
    intros x Hx. now apply Nat.leb_le, Ha.
Qed.

Lemma stops_at_failure_spec (t : list Obs) :
  stops_at_failure t = true ->
  forall t1 g t2, t = t1 ++ Checked g false :: t2 ->
  Forall (fun o => is_log o = true) t2.
Proof.
  induction t as [ | o t IH]; intros H t1 g t2 E.
  - now destruct t1.
  - destruct t1 as [ | o1 t1]; cbn [app] in E; injection E as -> E'.
    + subst t. cbn [stops_at_failure] in H.
      apply Forall_forall. now apply forallb_forall.
    + apply (IH) with (t1 := t1) (g := g); [ | exact E'].
      destruct o1 as [g1 [ | ] | | | | | | | | | ]; cbn [stops_at_failure] in H;
        try exact H.
      subst t. rewrite forallb_app in H. apply andb_true_iff in H.
      destruct H as [_ H]. cbn in H. discriminate H.
Qed.

Lemma failure_in (t : list Obs) (g : Gate) :
  In (Checked g false) t -> existsb is_failure t = true.
Proof.
  intros H. apply existsb_exists. now exists (Checked g false).
Qed.

Lemma Filled_inj (m m' : Member) (s s' : Side) (e e' : Entry) :
  Filled m s e = Filled m' s' e' -> m = m' /\ s = s' /\ e = e'.
Proof. intros H. injection H as -> -> ->. auto. Qed.

Lemma Entry1_inj (x y : double) : Entry1 x = Entry1 y -> x = y.
Proof. intros H. now injection H. Qed.

Lemma Some_eq (A : Type) (a b : A) : Some a = Some b -> a = b.
Proof. intros H. now injection H. Qed.

Lemma Checked_inj (g g' : Gate) (b b' : bool) :
  Checked g b = Checked g' b' -> g = g' /\ b = b'.
Proof. intros H. injection H as -> ->. auto. Qed.

Lemma CalledCalcMR_inj (ja jb ja' jb' : XYZTLorentzVector) :
  CalledCalcMR ja jb = CalledCalcMR ja' jb' -> ja = ja' /\ jb = jb'.
Proof. intros H. injection H as -> ->. auto. Qed.

Lemma Computed_inj (a b c d a' b' c' d' : double) :
  Computed a b c d = Computed a' b' c' d' ->
  a = a' /\ b = b' /\ c = c' /\ d = d'.
Proof. intros H. injection H as -> -> -> ->. auto. Qed.

(** In a journal whose steps never go backwards no denominator fill
    comes after a numerator fill. *)
Lemma denominator_fills_first (t : list Obs) :
  StronglySorted le (map step t) ->
  forall t1 m e t2, t = t1 ++ Filled m Num e :: t2 ->
  forall m' e', ~ In (Filled m' Den e') t2.
Proof.
  intros S t1 m e t2 -> m' e' Hin.
  rewrite map_app in S. cbn [map] in S.
  induction t1 as [ | o t1 IH]; cbn [app map] in S.
  - inversion S as [ | a l _ Hall]; subst.
    rewrite Forall_forall in Hall.
    specialize (Hall (step (Filled m' Den e')) (in_map step _ _ Hin)).
    cbn in Hall. lia.
  - inversion S; subst. now apply IH.
Qed.
End JournalFacts.

(** ** Running [analyze] by cases *)

Ltac run_simpl :=
  unfold return_if, when, branch, deref, front, at_, Fill, note, exit, abort,
    ret, bind in *;
  cbn [result final trace app negb andb orb nth_error fst snd
       isValid List.length Nat.eqb
       member set_member side set_side
       MR_ME_ Rsq_ME_ dPhiR_ME_ MRVsRsq_ME_ currentFolder
       numerator denominator
       var_MR var_R var_Rsq var_dPhiR] in *.

(** The condition the run is waiting for: the innermost scrutinee. *)
Ltac pending t :=
  lazymatch t with
  | match ?x with _ => _ end => pending x
  | if ?x then _ else _ => pending x
  | _ => t
  end.

Ltac run_step :=
  lazymatch goal with
  | |- context [trace ?x] =>
      let s := pending x in destruct s eqn:?; run_simpl
  | |- context [result ?x] =>
      let s := pending x in destruct s eqn:?; run_simpl
  | |- context [final ?x] =>
      let s := pending x in destruct s eqn:?; run_simpl
  end.

(** Every path through [analyze], one goal each. *)
Ltac analyze_paths ev :=
  unfold analyze, razorVariables, CalcR;
  destruct (hemispheres ev) as [[ | ? [ | ? ?]] | ] eqn:?;
  run_simpl; repeat run_step.

Ltac analyze_cases ev w :=
  destruct w as [[? ?] [? ?] [? ?] [? ?] ?];
  analyze_paths ev.

(** The conditions met on the path, used where the goal tests them. *)
Ltac use_conditions :=
  repeat match goal with
         | H : ?c = _ |- context [if ?c then _ else _] => rewrite H
         | H : ?c = _ |- context [negb ?c] => rewrite H
         end.

(** A hypothesis [In x l] on a list that is written out. *)
Ltac refute H :=
  lazymatch type of H with
  | Computed _ _ _ _ = Computed _ _ _ _ => idtac
  | CalledCalcMR _ _ = CalledCalcMR _ _ => idtac
  | _ => try discriminate H
  end.

Ltac in_cases H :=
  cbn [In] in H;
  repeat match type of H with
         | _ \/ _ => destruct H as [H | H]; [ refute H | ]
         | False => destruct H
         end.

(** [In (Filled m s ?e) l] with the entry left open. *)
Ltac in_solve_fill :=
  cbn [In];
  repeat lazymatch goal with
         | |- Filled ?m ?s _ = Filled ?m ?s _ \/ _ => left; reflexivity
         | |- _ \/ _ => right
         end.

(** Conditions on the size of a collection, read as arithmetic. *)
Ltac sizes :=
  repeat match goal with
         | H : andb _ _ = true |- _ =>
             apply andb_true_iff in H; destruct H as [? H]
         | H : negb (Nat.eqb _ _) = true |- _ => apply negb_true_iff in H
         | H : Nat.eqb _ _ = true |- _ => apply Nat.eqb_eq in H
         | H : andb _ (negb (Nat.eqb _ _)) = false |- _ =>
             apply andb_false_iff in H; destruct H as [H | H]
         | H : negb (Nat.eqb _ _) = false |- _ => apply negb_false_iff in H
         | H : Nat.eqb _ _ = false |- _ => apply Nat.eqb_neq in H
         end;
  cbn [List.length] in *; try lia.

Ltac in_solve_call :=
  cbn [In];
  repeat lazymatch goal with
         | |- CalledCalcMR _ _ = CalledCalcMR _ _ \/ _ => left; reflexivity
         | |- _ \/ _ => right
         end.

Ltac in_solve :=
  cbn [In List.length];
  repeat lazymatch goal with
         | |- ?a = ?a \/ _ => left; reflexivity
         | |- _ \/ _ => right
         end.

(** ** The event selection *)

Section AnalyzeFacts.
Context {host : Azimuth}.
Variable cfg : Config.

Lemma booked_inv (w : World) :
  booked w ->
  exists n1 d1 n2 d2 n3 d3 n4 d4,
    w = mkWorld (mkRazorME (Some n1) (Some d1)) (mkRazorME (Some n2) (Some d2))
                (mkRazorME (Some n3) (Some d3)) (mkRazorME (Some n4) (Some d4))
                (currentFolder w).
Proof.
  intros B.
  pose proof (B MR_ME Num) as H1. pose proof (B MR_ME Den) as H2.
  pose proof (B Rsq_ME Num) as H3. pose proof (B Rsq_ME Den) as H4.
  pose proof (B dPhiR_ME Num) as H5. pose proof (B dPhiR_ME Den) as H6.
  pose proof (B MRVsRsq_ME Num) as H7. pose proof (B MRVsRsq_ME Den) as H8.
  destruct w as [[[n1 | ] [d1 | ]] [[n2 | ] [d2 | ]] [[n3 | ] [d3 | ]]
                 [[n4 | ] [d4 | ]] f];
    cbn in *; try congruence.
  now exists n1, d1, n2, d2, n3, d3, n4, d4.
Qed.

Lemma analyze_journal_shape (ev : Event) (w : World) :
  let r := analyze cfg ev w in
  gates_of (trace r) = firstn (List.length (gates_of (trace r))) gate_order /\
  nondecreasing (map step (trace r)) = true /\
  stops_at_failure (trace r) = true /\
  (existsb is_failure (trace r) = true -> result r = Returned) /\
  (forall m e, In (Filled m Num e) (trace r) -> In (Filled m Den e) (trace r)).
Proof.
  analyze_cases ev w.
  all: do 3 (split; [reflexivity | ]).
  all: split; [first [reflexivity | discriminate] | ].
  all: intros ? ? H; in_cases H.
  all: apply Filled_inj in H; destruct H as (<- & _ & <-); in_solve.
Qed.

Lemma lets_through (flag_on accept : bool) :
  negb flag_on || accept = negb (flag_on && negb accept).
Proof. now destruct flag_on, accept. Qed.

Lemma one_of_three (a b c : bool) :
  a || (b || (c || false)) = negb (negb a && negb b && negb c).
Proof. now destruct a, b, c. Qed.

Ltac conditions :=
  repeat match goal with
         | H : negb _ = true |- _ => apply negb_true_iff in H
         | H : negb _ = false |- _ => apply negb_false_iff in H
         | H : trigger_rejects _ _ = _ |- _ => unfold trigger_rejects in H
         end.

(** The checks due on the path the run took. *)
Ltac due_checks :=
  cbn [checks_of checks_due gate_order passes isValid];
  repeat (first [ rewrite Nat.leb_antisym
                | rewrite lets_through
                | rewrite one_of_three
                | progress unfold razor_cut_passes
                | match goal with
                  | H : ?c = _ |- context [?c] => rewrite H
                  end ];
          cbn [checks_due passes razor_cut_passes isValid negb andb orb existsb
               List.length Nat.eqb]).

Lemma analyze_checks_due (ev : Event) (w : World) :
  let r := analyze cfg ev w in
  booked w ->
  checks_of (trace r) = checks_due cfg ev gate_order /\
  (result r = Returned -> existsb is_failure (trace r) = true) /\
  (result r = Value tt <->
   checks_of (trace r) = map (fun g => (g, true)) gate_order) /\
  ((exists m e, In (Filled m Den e) (trace r)) <->
   In (Checked DenominatorTriggerAgain true) (trace r)) /\
  ((exists m e, In (Filled m Num e) (trace r)) <->
   In (Checked NumeratorTrigger true) (trace r)).
Proof.
  intros r B. subst r.
  destruct (booked_inv B) as (n1 & d1 & n2 & d2 & n3 & d3 & n4 & d4 & E).
  rewrite E. clear B E. analyze_paths ev.
  all: split; [conditions; due_checks; reflexivity | ].
  all: split; [intros ?; first [reflexivity | discriminate] | ].
  all: split;
    [cbn [checks_of map gate_order];
     split; intros ?; first [reflexivity | discriminate] | ].
  all: split; split.
  all: try (intros (? & ? & F); in_cases F; in_solve; fail).
  all: try (intros F; in_cases F; fail).
  all: intros _; exists dPhiR_ME; eexists; in_solve_fill.
Qed.

(** C1. With the histograms booked, whatever the event: the checks
    [analyze] makes, with their outcomes, are the gates of the source
    text taken in its order (denominator trigger, MET cut, jet count,
    hemisphere validity, razor cut, denominator trigger again, numerator
    trigger), each letting the event through exactly when its condition
    on the event says so, up to and with the first that does not. The
    steps of the journal never go backwards, the denominator fills lying
    between the second denominator check and the numerator check and
    the numerator fills after it. A failed check ends the run at once
    ([return;], at most an error message follows), and [analyze] returns
    early for no other reason; it runs to its end exactly when all the
    gates let the event through. Denominator histograms are filled
    exactly when the second denominator check is passed, numerator
    histograms exactly when the numerator check is. Hence no denominator
    fill comes after a numerator fill, and whatever a numerator
    histogram is filled with, the denominator histogram of the same pair
    was filled with before. *)
Theorem analyze_gate_order (ev : Event) (w : World) :
  let r := analyze cfg ev w in
  booked w ->
  checks_of (trace r) = checks_due cfg ev gate_order /\
  StronglySorted le (map step (trace r)) /\
  (forall t1 g t2, trace r = t1 ++ Checked g false :: t2 ->
     result r = Returned /\ Forall (fun o => is_log o = true) t2) /\
  (result r = Returned <-> exists g, In (Checked g false) (trace r)) /\
  (result r = Value tt <->
   checks_of (trace r) = map (fun g => (g, true)) gate_order) /\
  ((exists m e, In (Filled m Den e) (trace r)) <->
   In (Checked DenominatorTriggerAgain true) (trace r)) /\
  ((exists m e, In (Filled m Num e) (trace r)) <->
   In (Checked NumeratorTrigger true) (trace r)) /\
  (forall t1 m e t2, trace r = t1 ++ Filled m Num e :: t2 ->
     forall m' e', ~ In (Filled m' Den e') t2) /\
  (forall m e, In (Filled m Num e) (trace r) -> In (Filled m Den e) (trace r)).
Proof.
  intros r B.
  destruct (analyze_journal_shape ev w) as (_ & Hs & Hq & Hf & Hn).
  destruct (analyze_checks_due ev B) as (Hc & Hr & Hv & Hd & Hu).
  fold r in Hs, Hq, Hf, Hn, Hc, Hr, Hv, Hd, Hu.
  assert (S : StronglySorted le (map step (trace r)))
    by now apply nondecreasing_sorted.
  split; [exact Hc | ].
  split; [exact S | ].
  split.
  { intros t1 g t2 E. split.
    - apply Hf, failure_in with (g := g). rewrite E.
      apply in_or_app. right. now left.
    - eapply stops_at_failure_spec; eassumption. }
  split.
  { split.
    - intros H. apply Hr in H. apply existsb_exists in H.
      destruct H as ([g [ | ] | | | | | | | | | ] & Hin & Hx);
        try discriminate Hx.
      now exists g.
    - intros (g & Hin). apply Hf, failure_in with (g := g). exact Hin. }
  split; [exact Hv | ].
  split; [exact Hd | ].
  split; [exact Hu | ].
  split; [ | exact Hn].
  now apply denominator_fills_first.
Qed.

(** C7. When a check fails, [analyze] returns. If the failed check is
    any but the numerator trigger, no histogram was filled and the
    histograms are as they were. If it is the numerator trigger, no
    numerator histogram was filled, the numerator pointers are as they
    were, and each denominator histogram holds exactly what was filled
    before the check: one more entry where the journal shows a fill,
    nothing new elsewhere. *)
Theorem early_return_leaves_histograms (ev : Event) (w : World) (g : Gate) :
  let r := analyze cfg ev w in
  In (Checked g false) (trace r) ->
  result r = Returned /\
  (g <> NumeratorTrigger ->
     (forall m s e, ~ In (Filled m s e) (trace r)) /\ final r = w) /\
  (g = NumeratorTrigger ->
     (forall m e, ~ In (Filled m Num e) (trace r)) /\
     (forall m, numerator (member m (final r)) = numerator (member m w)) /\
     (forall m e, In (Filled m Den e) (trace r) ->
        entries m Den (final r) = e :: entries m Den w) /\
     (forall m, (forall e, ~ In (Filled m Den e) (trace r)) ->
        denominator (member m (final r)) = denominator (member m w))).
Proof.
  analyze_cases ev w.
  all: intros H; in_cases H; apply Checked_inj in H; destruct H as (<- & _).
  all: split; [reflexivity | split].
  all: try (intros E; discriminate E).
  all: try (intros _; split; [intros ? ? ? F; in_cases F | reflexivity]).
  all: try (intros N; now contradiction N).
  all: intros _; split; [intros ? ? F; in_cases F | ].
  all: split; [intros mm; destruct mm; reflexivity | ].
  all: split.
  all: try (intros ? ? F; in_cases F; apply Filled_inj in F;
            destruct F as (<- & _ & <-); reflexivity).
  all: intros mm N; destruct mm; try reflexivity.
  all: exfalso; eapply N; in_solve_fill.
Qed.

(** C8. For an event that passed the jet count: with an invalid
    hemisphere handle [analyze] returns and logs nothing; with an empty
    collection it logs an error and returns; with a collection of a size
    other than 0, 2, 5 and 10 it logs an error and returns. In all three
    cases no histogram is filled. The razor variables are computed
    exactly for the sizes 2, 5 and 10. *)
Theorem hemisphere_collection_gate (ev : Event) (w : World) :
  let r := analyze cfg ev w in
  In (Checked JetCount true) (trace r) ->
  (hemispheres ev = None ->
     result r = Returned /\
     In (Checked HemisphereValid false) (trace r) /\
     (forall c m s, ~ In (LogError c m s) (trace r)) /\
     (forall m s e, ~ In (Filled m s e) (trace r)) /\
     final r = w) /\
  (forall hs, hemispheres ev = Some hs ->
     (List.length hs = 0 ->
        result r = Returned /\
        In (LogError "DQM_HLT_Razor" too_many_jets None) (trace r) /\
        (forall m s e, ~ In (Filled m s e) (trace r)) /\
        final r = w) /\
     (List.length hs <> 0 /\ List.length hs <> 2 /\
      List.length hs <> 5 /\ List.length hs <> 10 ->
        result r = Returned /\
        In (LogError "DQM_HLT_Razor" invalid_hemispheres (Some (List.length hs)))
           (trace r) /\
        (forall m s e, ~ In (Filled m s e) (trace r)) /\
        final r = w) /\
     ((exists ja jb, In (CalledCalcMR ja jb) (trace r)) <->
      List.length hs = 2 \/ List.length hs = 5 \/ List.length hs = 10)).
Proof.
  analyze_cases ev w.
  all: intros R; in_cases R; clear R.
  all: split; [intros E | intros hs E]; try discriminate E.
  all: try (apply Some_eq in E; subst hs).
  all: repeat split; try in_solve.
  all: try (intros ? ? ? F; in_cases F; fail).
  all: try (intros (ja & jb & F); in_cases F; fail).
  all: try (intros _; do 2 eexists; in_solve_call; fail).
  all: try (cbn [List.length]; intros; lia).
  all: intros; sizes.
Qed.

(** X2. Whatever happened before the hemisphere gate: an event whose
    hemisphere handle is invalid, or whose collection has a size other
    than 2, 5 and 10, gets no razor variables, fills no histogram and
    leaves the histograms as they were. *)
Lemma no_razor_without_hemispheres (ev : Event) (w : World) :
  let r := analyze cfg ev w in
  (forall hs, hemispheres ev = Some hs ->
     List.length hs <> 2 /\ List.length hs <> 5 /\ List.length hs <> 10) ->
  (forall ja jb, ~ In (CalledCalcMR ja jb) (trace r)) /\
  (forall m s e, ~ In (Filled m s e) (trace r)) /\
  final r = w.
Proof.
  analyze_cases ev w.
  all: intros H.
  all: try (split; [intros ? ? F; in_cases F
                   | split; [intros ? ? ? F; in_cases F | reflexivity]]; fail).
  all: specialize (H _ eq_refl); exfalso; sizes.
Qed.

(** C2. Once the razor variables are there, the razor cut is checked,
    and it fails exactly when Rsq is below rsqCut_ and MR is below
    mrCut_, both. A failed cut makes [analyze] return with nothing
    filled. An event with Rsq at or above rsqCut_, or with MR at or
    above mrCut_, passes the cut. *)
Theorem razor_cut_is_an_or (ev : Event) (w : World) (MR R Rsq dPhiR : double) :
  let r := analyze cfg ev w in
  let both_below := ((Rsq <? rsqCut_ cfg) && (MR <? mrCut_ cfg))%dbl in
  In (Computed MR R Rsq dPhiR) (trace r) ->
  (forall pass, In (Checked RazorCut pass) (trace r) <-> pass = negb both_below) /\
  (both_below = true ->
     result r = Returned /\
     (forall m s e, ~ In (Filled m s e) (trace r)) /\
     final r = w) /\
  ((Rsq >=? rsqCut_ cfg)%dbl = true \/ (MR >=? mrCut_ cfg)%dbl = true ->
     both_below = false /\ In (Checked RazorCut true) (trace r)).
Proof.
  intros r both_below H.
  assert (K : (forall pass,
                 In (Checked RazorCut pass) (trace r) <-> pass = negb both_below) /\
              (both_below = true ->
                 result r = Returned /\
                 (forall m s e, ~ In (Filled m s e) (trace r)) /\
                 final r = w)).
  { revert H. subst r both_below. analyze_cases ev w.
    all: intros H; in_cases H; apply Computed_inj in H;
      destruct H as (<- & <- & <- & <-).
    all: match goal with
         | B : (Double.ltb _ _ && Double.ltb _ _) = _ |- _ => rewrite B
         end; cbn [negb].
    all: split; [intros pass; split | ].
    all: try (intros F; in_cases F; apply Checked_inj in F;
              destruct F as (_ & <-); reflexivity).
    all: try (intros ->; in_solve; fail).
    all: try (intros D; discriminate D).
    all: intros _; repeat split; intros ? ? ? F; in_cases F. }
  destruct K as [K1 K2]. split; [exact K1 | split; [exact K2 | ]].
  intros A. apply above_one_cut in A. fold both_below in A.
  split; [exact A | ]. apply K1. now rewrite A.
Qed.

(** C3. A first argument with a transverse momentum of 0.1 or less makes
    CalcMR return -1, and [analyze] goes on with it unchecked: -1 is
    the MR that is handed to CalcR; R is what CalcR returns for it, the
    quotient of MTR and -1 in single precision; Rsq is the square of
    that R; the razor cut compares this Rsq with rsqCut_ and -1 with
    mrCut_; and the pair that is filled into an MRVsRsq histogram is
    -1 and this Rsq. *)
Theorem CalcMR_sentinel_unchecked (ev : Event) (w : World)
        (ja jb : XYZTLorentzVector) :
  let r := analyze cfg ev w in
  (Pt ja <=? dbl_0_1)%dbl = true ->
  CalcMR ja jb = dbl_m1 /\
  (In (CalledCalcMR ja jb) (trace r) ->
   exists pfmet mets,
     metHandle ev = Some (pfmet :: mets) /\
     let R := ratio_as_float (MTR_of ja jb (momentum pfmet)) dbl_m1 in
     let Rsq := (R * R)%dbl in
     In (CalledCalcR dbl_m1 ja jb) (trace r) /\
     (forall w', CalcR dbl_m1 ja jb (metHandle ev) w' = mkRun (Value R) w' []) /\
     (exists dPhiR, In (Computed dbl_m1 R Rsq dPhiR) (trace r)) /\
     (forall MR' R' Rsq' dPhiR',
        In (Computed MR' R' Rsq' dPhiR') (trace r) ->
        MR' = dbl_m1 /\ R' = R /\ Rsq' = Rsq) /\
     In (Checked RazorCut
           (negb ((Rsq <? rsqCut_ cfg) && (dbl_m1 <? mrCut_ cfg))%dbl))
        (trace r) /\
     (forall s e, In (Filled MRVsRsq_ME s e) (trace r) -> e = Entry2 dbl_m1 Rsq)).
Proof.
  intros r Hpt.
  assert (E : CalcMR ja jb = dbl_m1) by (unfold CalcMR; now rewrite Hpt).
  split; [exact E | ]. clear Hpt. revert E. subst r.
  analyze_cases ev w.
  all: intros E F; in_cases F; apply CalledCalcMR_inj in F;
    destruct F as (<- & <-); rewrite E in *.
  all: do 2 eexists; split; [reflexivity | ]; cbv zeta.
  all: split; [in_solve | ].
  all: split; [intros ?; reflexivity | ].
  all: split;
    [ eexists; cbn [In];
      repeat lazymatch goal with
             | |- Computed _ _ _ _ = Computed _ _ _ _ \/ _ => left; reflexivity
             | |- _ \/ _ => right
             end
    | ].
  all: split;
    [ intros ? ? ? ? G; in_cases G; apply Computed_inj in G;
      destruct G as (<- & <- & <- & _); split; [ | split]; reflexivity
    | ].
  all: split;
    [ match goal with
      | B : (Double.ltb _ _ && Double.ltb _ _) = _ |- _ => rewrite B
      end; cbn [negb]; in_solve
    | ].
  all: intros ? ? G; in_cases G.
  all: apply Filled_inj in G; destruct G as (_ & _ & <-); reflexivity.
Qed.

(** C4, as the code has it. In the calls of CalcMR and CalcR the two
    hemispheres are elements 0 and 1 of the collection, and the one
    with the higher transverse momentum comes first: element 1 when its
    pT is greater than that of element 0, element 0 otherwise. The
    second argument never has the greater pT. *)
Theorem leading_hemisphere_first (ev : Event) (w : World)
        (ja jb : XYZTLorentzVector) :
  let r := analyze cfg ev w in
  In (CalledCalcMR ja jb) (trace r) ->
  (Pt jb >? Pt ja)%dbl = false /\
  In (CalledCalcR (CalcMR ja jb) ja jb) (trace r) /\
  exists hs h0 h1,
    hemispheres ev = Some hs /\
    nth_error hs 0 = Some h0 /\ nth_error hs 1 = Some h1 /\
    ((Pt h1 >? Pt h0)%dbl = true /\ ja = h1 /\ jb = h0 \/
     (Pt h1 >? Pt h0)%dbl = false /\ ja = h0 /\ jb = h1).
Proof.
  analyze_cases ev w.
  all: intros F; in_cases F; apply CalledCalcMR_inj in F;
    destruct F as (<- & <-).
  all: split; [first [assumption | apply gtb_asym; assumption] | ].
  all: split; [in_solve | ].
  all: do 3 eexists; repeat split; try reflexivity.
  all: first [ left; repeat split; [assumption | reflexivity ..]
             | right; repeat split; [assumption | reflexivity ..] ].
Qed.


(** C10. On an event that passed the second denominator check, with
    the histograms booked: a denominator histogram is filled exactly with
    what is due to it (MR when Rsq is at or above rsqCut_, Rsq when MR is
    at or above mrCut_, dPhiR and MRVsRsq always); the numerator trigger
    is checked next, and a numerator histogram is filled exactly when the
    trigger passes and with what is due to it under the same conditions.
    The histograms end up with these entries on top of what they
    held. *)
Theorem fill_conditions (ev : Event) (w : World) (MR R Rsq dPhiR : double) :
  let r := analyze cfg ev w in
  let pass := negb (trigger_rejects (num_genTriggerEventFlag_ cfg) (num_accept ev)) in
  let push (o : option Entry) (l : list Entry) :=
    match o with Some e => e :: l | None => l end in
  booked w ->
  In (Computed MR R Rsq dPhiR) (trace r) ->
  In (Checked DenominatorTriggerAgain true) (trace r) ->
  (forall m e, In (Filled m Den e) (trace r) <-> due cfg MR Rsq dPhiR m = Some e) /\
  In (Checked NumeratorTrigger pass) (trace r) /\
  (forall m e, In (Filled m Num e) (trace r) <->
               pass = true /\ due cfg MR Rsq dPhiR m = Some e) /\
  (forall m, entries m Den (final r) =
             push (due cfg MR Rsq dPhiR m) (entries m Den w)) /\
  (forall m, entries m Num (final r) =
             if pass then push (due cfg MR Rsq dPhiR m) (entries m Num w)
             else entries m Num w).
Proof.
  intros r pass push B.
  destruct (booked_inv B) as (n1 & d1 & n2 & d2 & n3 & d3 & n4 & d4 & E).
  subst r pass push. rewrite E. clear B E. analyze_paths ev.
  all: intros H G; in_cases G; clear G.
  all: in_cases H; apply Computed_inj in H; destruct H as (<- & _ & <- & <-).
  all: unfold due, entries; use_conditions; cbn [negb].
  all: split; [intros mm ee; destruct mm; split | ].
  all: try (intros F; in_cases F; apply Filled_inj in F;
            destruct F as (_ & _ & <-); reflexivity).
  all: try (intros D;
            first [discriminate D | apply Some_eq in D; subst ee; in_solve];
            fail).
  all: split; [in_solve | ].
  all: split; [intros mm ee; destruct mm; split | ].
  all: try (intros F; in_cases F; apply Filled_inj in F;
            destruct F as (_ & _ & <-); split; reflexivity).
  all: try (intros (T & D);
            first [ discriminate T | discriminate D
                  | apply Some_eq in D; subst ee; in_solve ];
            fail).
  all: split; intros mm; destruct mm; reflexivity.
Qed.

(** X1. With the histograms booked and the MET and jet products there,
    [analyze] never stops abnormally: every [at] is in range and every
    pointer it fills through is set. *)
Lemma analyze_does_not_abort (ev : Event) (w : World)
      (pfmet : PFMET) (mets : list PFMET) (jets : list PFJet) :
  booked w ->
  metHandle ev = Some (pfmet :: mets) ->
  jetHandle ev = Some jets ->
  result (analyze cfg ev w) <> Aborted.
Proof.
  intros B.
  destruct (booked_inv B) as (n1 & d1 & n2 & d2 & n3 & d3 & n4 & d4 & E).
  rewrite E. clear B E. analyze_paths ev.
  all: intros; congruence.
Qed.

End AnalyzeFacts.

(** ** CalcR *)

Section CalcRFacts.
Local Open Scope dbl_scope.

(** Dividing by a zero in single precision gives an infinity or a NaN. *)
Lemma single_div_by_zero (x : Single.t) (s : bool) :
  let q := Single.to_double (Single.div x (S754_zero s)) in
  Double.is_infinite q || Double.is_nan q = true.
Proof. destruct x as [sx | sx | | sx m e]; reflexivity. Qed.

(** C5, as the code has it. With a valid, non-empty MET collection CalcR
    returns, without touching any state, the quotient of MTR and MR taken
    in single precision: both are rounded to [float], divided as
    [float]s, and the result is widened to [double]; MTR is
    sqrt(0.5*(|MET|*(pT_a+pT_b) - MET.(vec a + vec b))) in double
    precision. Nothing guards the division: for an MR of zero the result
    is an infinity or a NaN. *)
Theorem CalcR_single_precision_quotient
        (MR : double) (ja jb : XYZTLorentzVector)
        (m : PFMET) (rest : list PFMET) (w : World) :
  let met := momentum m in
  let MTR := Double.sqrt (dbl_0_5 * (V3_R met * (Pt ja + Pt jb)
                                     - V3_Dot met (V3_add (Vect ja) (Vect jb)))) in
  let quotient (MR : double) :=
    Single.to_double (Single.div (Single.of_double MTR) (Single.of_double MR)) in
  CalcR MR ja jb (Some (m :: rest)) w = mkRun (Value (quotient MR)) w [] /\
  (forall s : bool,
     Double.is_infinite (quotient (S754_zero s))
     || Double.is_nan (quotient (S754_zero s)) = true).
Proof.
  intros met MTR quotient. split.
  - reflexivity.
  - intros s. unfold quotient. cbn [Single.of_double].
    apply single_div_by_zero.
Qed.
End CalcRFacts.

(** ** bookHistograms *)

Section BookingFacts.
Variable cfg : Config.
Local Open Scope string_scope.

(** A string without a NUL is its own [c_str]. *)
Lemma c_str_without_nul (s : string) :
  (forall c, In c (list_ascii_of_string s) -> c <> Ascii.zero) ->
  c_str s = s.
Proof.
  induction s as [ | c s IH]; cbn [c_str list_ascii_of_string]; intros H.
  - reflexivity.
  - destruct (Ascii.eqb_spec c Ascii.zero) as [-> | _].
    + now destruct (H Ascii.zero (or_introl eq_refl)).
    + f_equal. apply IH. intros c' Hc'. apply H. now right.
Qed.

(** C9, as the code has it. bookHistograms sets the current folder to
    the configured one and books four pairs of histograms in it, each
    pair a numerator and a denominator with the same binning: MR, Rsq and
    dPhiR, one-dimensional over the configured bin edges, and MRVsRsq,
    two-dimensional over the MR and Rsq edges. The axis titles of a pair
    are set right after the pair is booked, before the next pair. Then
    the trigger flags that are on are initialised. All eight pointers are
    set afterwards. *)
Theorem bookHistograms_books_four_pairs (w : World) :
  let r := bookHistograms cfg w in
  let folder := c_str (folderName_ cfg) in
  let bins1 (edges : list double) :=
    Book1DVar (nbins_of edges) (fbinning_of edges) in
  let bins2 (edgesX edgesY : list double) :=
    Book2DVar (nbins_of edgesX) (fbinning_of edgesX)
              (nbins_of edgesY) (fbinning_of edgesY) in
  let pair name title b titleX titleY :=
    mkRazorME
      (Some (titled folder (name ++ "_numerator") (title ++ " (numerator)") b
                    titleX titleY))
      (Some (titled folder (name ++ "_denominator") (title ++ " (denominator)") b
                    titleX titleY)) in
  result r = Value tt /\
  trace r =
    FolderSet folder
    :: pair_journal MR_ME folder "MR" "PF MR" (bins1 (mr_binning_ cfg))
                    "PF M_{R} [GeV]" "events / [GeV]"
    ++ pair_journal Rsq_ME folder "Rsq" "PF Rsq" (bins1 (rsq_binning_ cfg))
                    "PF R^{2}" "events"
    ++ pair_journal dPhiR_ME folder "dPhiR" "dPhiR" (bins1 (dphiR_binning_ cfg))
                    "dPhi_{R}" "events"
    ++ pair_journal MRVsRsq_ME folder "MRVsRsq" "PF MR vs PF Rsq"
                    (bins2 (mr_binning_ cfg) (rsq_binning_ cfg))
                    "M_{R} [GeV]" "R^{2}"
    ++ (if on (num_genTriggerEventFlag_ cfg) then [RunInitialised Num] else [])
    ++ (if on (den_genTriggerEventFlag_ cfg) then [RunInitialised Den] else []) /\
  final r =
    mkWorld
      (pair "MR" "PF MR" (bins1 (mr_binning_ cfg)) "PF M_{R} [GeV]" "events / [GeV]")
      (pair "Rsq" "PF Rsq" (bins1 (rsq_binning_ cfg)) "PF R^{2}" "events")
      (pair "dPhiR" "dPhiR" (bins1 (dphiR_binning_ cfg)) "dPhi_{R}" "events")
      (pair "MRVsRsq" "PF MR vs PF Rsq" (bins2 (mr_binning_ cfg) (rsq_binning_ cfg))
            "M_{R} [GeV]" "R^{2}")
      folder /\
  (forall s, booked_members 1 s (trace r) = [MR_ME; Rsq_ME; dPhiR_ME]) /\
  (forall s, booked_members 2 s (trace r) = [MRVsRsq_ME]) /\
  booked (final r).
Proof.
  intros r folder bins1 bins2 pair. subst r folder bins1 bins2 pair.
  unfold bookHistograms, bookME_1DVar, bookME_2DVar, setMETitle,
    setCurrentFolder, book, setAxisTitle, initRun.
  destruct w as [[? ?] [? ?] [? ?] [? ?] ?].
  destruct (on (num_genTriggerEventFlag_ cfg)),
           (on (den_genTriggerEventFlag_ cfg));
    run_simpl;
    cbn [set_folder Z.eqb Pos.eqb me_folder me_name me_title
         me_booking me_axis1 me_axis2 me_entries].
  all: do 3 (split; [reflexivity | ]).
  all: split; [intros s; destruct s; reflexivity | ].
  all: split; [intros s; destruct s; reflexivity | ].
  all: intros m s; destruct m, s; discriminate.
Qed.
End BookingFacts.

(** ** The theorems on the sample events *)

Section OnSamples.
Import Sample.
Local Open Scope dbl_scope.

#[local] Existing Instance azimuth.

Local Notation "'run_on' ev" :=
  (analyze (host := azimuth) config ev booked_world) (at level 10, ev at level 9).

Ltac evaluated_in :=
  vm_compute; repeat first [ left; reflexivity | right ].

(** C2 on the sample event: MR is above its cut, Rsq is not, and the
    event passes the razor cut. *)
Lemma razor_cut_is_an_or_witness :
  In (Computed MR0 R0 (R0 * R0) dPhiR0) (trace (run_on event)) /\
  (MR0 >=? mrCut_ config) = true /\
  In (Checked RazorCut true) (trace (run_on event)).
Proof.
  assert (H : In (Computed MR0 R0 (R0 * R0) dPhiR0) (trace (run_on event)))
    by evaluated_in.
  assert (A : (MR0 >=? mrCut_ config) = true) by (vm_compute; reflexivity).
  split; [exact H | split; [exact A | ]].
  exact (proj2 (proj2 (proj2 (@razor_cut_is_an_or azimuth config event booked_world
                                MR0 R0 (R0 * R0) dPhiR0 H)) (or_intror A))).
Defined.

(** C3 on the event with two soft hemispheres: MR is -1 and is handed
    on to CalcR. *)
Lemma CalcMR_sentinel_unchecked_witness :
  (Pt hemi_soft0 <=? dbl_0_1) = true /\
  CalcMR hemi_soft0 hemi_soft1 = dbl_m1 /\
  In (CalledCalcMR hemi_soft0 hemi_soft1) (trace (run_on event_soft)) /\
  In (CalledCalcR dbl_m1 hemi_soft0 hemi_soft1) (trace (run_on event_soft)).
Proof.
  assert (H : (Pt hemi_soft0 <=? dbl_0_1) = true) by (vm_compute; reflexivity).
  assert (F : In (CalledCalcMR hemi_soft0 hemi_soft1) (trace (run_on event_soft)))
    by evaluated_in.
  destruct (@CalcMR_sentinel_unchecked azimuth config event_soft booked_world
              hemi_soft0 hemi_soft1 H) as [E K].
  split; [exact H | split; [exact E | split; [exact F | ]]].
  destruct (K F) as (pfmet & mets & _ & C & _).
  exact C.
Defined.

(** C4 on the event with the hemispheres stored in the other order. *)
Lemma leading_hemisphere_first_witness :
  In (CalledCalcMR hemi0 hemi1) (trace (run_on event_swapped)) /\
  (Pt hemi1 >? Pt hemi0) = false.
Proof.
  assert (H : In (CalledCalcMR hemi0 hemi1) (trace (run_on event_swapped)))
    by evaluated_in.
  split; [exact H | ].
  exact (proj1 (@leading_hemisphere_first azimuth config event_swapped booked_world
                  hemi0 hemi1 H)).
Defined.

(** C4 as worded fails on the sample event: CalcMR and CalcR
    are called with [hemi0] first and [hemi1] second, and [hemi0] is the
    one with the higher transverse momentum (300 against 200); the same
    call is made when the collection holds the two in the other order. *)
Lemma higher_pt_hemisphere_is_passed_first :
  In (CalledCalcMR hemi0 hemi1) (trace (run_on event)) /\
  In (CalledCalcR MR0 hemi0 hemi1) (trace (run_on event)) /\
  In (CalledCalcMR hemi0 hemi1) (trace (run_on event_swapped)) /\
  (Pt hemi0 >? Pt hemi1) = true /\
  forallb higher_pt_second (trace (run_on event)) = false.
Proof.
  split; [evaluated_in | ].
  split; [evaluated_in | ].
  split; [evaluated_in | ].
  split; vm_compute; reflexivity.
Qed.

(** C5 as worded fails on the sample event: what CalcR
    returns there is not the quotient MTR/MR of the two doubles. *)
Lemma CalcR_is_not_the_double_quotient :
  result (CalcR MR0 hemi0 hemi1 (Some [met0]) booked_world) = Value R0 /\
  (R0 =? MTR0 / MR0) = false.
Proof. split; vm_compute; reflexivity. Qed.



(** C7 on the event that only the numerator trigger rejects. *)
Lemma early_return_leaves_histograms_witness :
  In (Checked NumeratorTrigger false) (trace (run_on event_num_rejected)) /\
  result (run_on event_num_rejected) = Returned /\
  (forall m e, ~ In (Filled m Num e) (trace (run_on event_num_rejected))).
Proof.
  assert (H : In (Checked NumeratorTrigger false) (trace (run_on event_num_rejected)))
    by evaluated_in.
  destruct (@early_return_leaves_histograms azimuth config event_num_rejected
              booked_world NumeratorTrigger H) as (E & _ & K).
  split; [exact H | split; [exact E | ]].
  exact (proj1 (K eq_refl)).
Defined.

(** C8 on the event without the hemisphere product. *)
Lemma hemisphere_collection_gate_witness :
  In (Checked JetCount true) (trace (run_on event_no_hemispheres)) /\
  result (run_on event_no_hemispheres) = Returned /\
  (forall m s e, ~ In (Filled m s e) (trace (run_on event_no_hemispheres))).
Proof.
  assert (H : In (Checked JetCount true) (trace (run_on event_no_hemispheres)))
    by evaluated_in.
  destruct (@hemisphere_collection_gate azimuth config event_no_hemispheres
              booked_world H) as (K & _).
  destruct (K eq_refl) as (E & _ & _ & F & _).
  split; [exact H | split; [exact E | exact F]].
Defined.

Lemma sample_histograms_booked : booked booked_world.
Proof. intros m s. destruct m, s; vm_compute; discriminate. Qed.

(** C1 on the sample event: all ten checks are made, in the order of
    the source, and all let the event through. *)
Lemma analyze_gate_order_witness :
  booked booked_world /\
  checks_of (trace (run_on event)) = checks_due config event gate_order /\
  checks_due config event gate_order = map (fun g => (g, true)) gate_order /\
  result (run_on event) = Value tt.
Proof.
  destruct (@analyze_gate_order azimuth config event booked_world
              sample_histograms_booked) as (C & _ & _ & _ & V & _).
  assert (D : checks_due config event gate_order
              = map (fun g => (g, true)) gate_order) by (vm_compute; reflexivity).
  split; [exact sample_histograms_booked | ].
  split; [exact C | ].
  split; [exact D | ].
  exact (proj2 V (eq_trans C D)).
Defined.

(** C10 on the sample event: Rsq is filled, MR is not. *)
Lemma fill_conditions_witness :
  booked booked_world /\
  In (Computed MR0 R0 (R0 * R0) dPhiR0) (trace (run_on event)) /\
  In (Checked DenominatorTriggerAgain true) (trace (run_on event)) /\
  In (Filled Rsq_ME Den (Entry1 (R0 * R0))) (trace (run_on event)) /\
  (forall e, ~ In (Filled MR_ME Den e) (trace (run_on event))).
Proof.
  assert (H : In (Computed MR0 R0 (R0 * R0) dPhiR0) (trace (run_on event)))
    by evaluated_in.
  assert (G : In (Checked DenominatorTriggerAgain true) (trace (run_on event)))
    by evaluated_in.
  destruct (@fill_conditions azimuth config event booked_world
              MR0 R0 (R0 * R0) dPhiR0 sample_histograms_booked H G) as (K & _).
  split; [exact sample_histograms_booked | ].
  split; [exact H | split; [exact G | split]].
  - assert (D : due config MR0 (R0 * R0) dPhiR0 Rsq_ME = Some (Entry1 (R0 * R0)))
      by (vm_compute; reflexivity).
    exact (proj2 (K Rsq_ME (Entry1 (R0 * R0))) D).
  - intros e F. pose proof (proj1 (K MR_ME e) F) as D.
    vm_compute in D. discriminate D.
Defined.

(** C9 as worded fails on the defaults: four pairs are booked,
    not five, and three of them are one-dimensional, not four. *)
Lemma bookHistograms_books_no_fifth_pair :
  let t := trace (bookHistograms config constructed) in
  List.length (booked_members 1 Num t ++ booked_members 2 Num t) = 4 /\
  List.length (booked_members 1 Den t ++ booked_members 2 Den t) = 4 /\
  booked_members 1 Num t = [MR_ME; Rsq_ME; dPhiR_ME] /\
  booked_members 2 Num t = [MRVsRsq_ME].
Proof. vm_compute. repeat split. Qed.
End OnSamples.

(** ** The histograms only grow *)

Section Growth.
Local Open Scope monad_scope.

Lemma same_booking_refl (a : MonitorElement) : same_booking a a.
Proof. repeat split. Qed.

Lemma same_booking_trans (a b c : MonitorElement) :
  same_booking a b -> same_booking b c -> same_booking a c.
Proof.
  intros (A1 & A2 & A3 & A4 & A5 & A6) (B1 & B2 & B3 & B4 & B5 & B6).
  repeat split; congruence.
Qed.

Lemma fills_of_app (m : Member) (s : Side) (t t' : list Obs) :
  fills_of m s (t ++ t') = fills_of m s t ++ fills_of m s t'.
Proof.
  induction t as [ | o t IH]; cbn [app fills_of]; [reflexivity | ].
  destruct o; try exact IH.
  destruct (Member_eqb m m0 && Side_eqb s s0); cbn [app]; now rewrite IH.
Qed.

Lemma grown_refl (w : World) : grown w w [].
Proof.
  split; [reflexivity | ]. intros m s.
  destruct (side s (member m w)) as [me | ]; [ | now split].
  exists me. split; [reflexivity | ]. split; [apply same_booking_refl | reflexivity].
Qed.

Lemma grown_trans (w w' w'' : World) (t t' : list Obs) :
  grown w w' t -> grown w' w'' t' -> grown w w'' (t ++ t').
Proof.
  intros [F G] [F' G']. split; [congruence | ]. intros m s.
  specialize (G m s). specialize (G' m s). rewrite fills_of_app.
  destruct (side s (member m w)) as [me | ].
  - destruct G as (me' & E & B & N). rewrite E in G'.
    destruct G' as (me'' & E' & B' & N').
    exists me''. split; [exact E' | ]. split; [now apply same_booking_trans with me' | ].
    rewrite N', N, rev_app_distr. now rewrite app_assoc.
  - destruct G as [E N]. rewrite E in G'. destruct G' as [E' N'].
    split; [exact E' | ]. now rewrite N, N'.
Qed.

(** A journal entry that is no fill leaves the reading of the fills as
    it is. *)
Lemma grown_note (w : World) (o : Obs) : is_fill o = false -> grown w w [o].
Proof.
  intros H. split; [reflexivity | ]. intros m s.
  assert (E : fills_of m s [o] = []) by (destruct o; try reflexivity; discriminate H).
  rewrite E.
  destruct (side s (member m w)) as [me | ]; [ | now split].
  exists me. split; [reflexivity | ]. split; [apply same_booking_refl | reflexivity].
Qed.

Lemma appends_ret (A : Type) (a : A) : appends (ret a).
Proof. intros w. apply grown_refl. Qed.

Lemma appends_exit (A : Type) : appends (@exit A).
Proof. intros w. apply grown_refl. Qed.

Lemma appends_note (o : Obs) : is_fill o = false -> appends (note o).
Proof. intros H w. now apply grown_note. Qed.

Lemma appends_deref (A : Type) (h : Handle A) : appends (deref h).
Proof. intros w. unfold deref. destruct h; apply grown_refl. Qed.

Lemma appends_front (A : Type) (c : list A) : appends (front c).
Proof. intros w. unfold front. destruct c; apply grown_refl. Qed.

Lemma appends_at (A : Type) (c : list A) (i : nat) : appends (at_ c i).
Proof. intros w. unfold at_. destruct (nth_error c i); apply grown_refl. Qed.

Lemma appends_bind (A B : Type) (c : M A) (f : A -> M B) :
  appends c -> (forall a, appends (f a)) -> appends (bind c f).
Proof.
  intros Hc Hf w. unfold bind. specialize (Hc w).
  destruct (c w) as [[a | | ] w' t]; cbn [final trace] in *; try exact Hc.
  specialize (Hf a w').
  destruct (f a w') as [r w'' t']; cbn [final trace] in *.
  now apply grown_trans with w'.
Qed.

Lemma appends_branch (A : Type) (c : bool) (a b : M A) :
  appends a -> appends b -> appends (branch c a b).
Proof. intros Ha Hb w. unfold branch. destruct c; [apply Ha | apply Hb]. Qed.

Lemma appends_when (c : bool) (a : M unit) : appends a -> appends (when c a).
Proof. intros Ha. apply appends_branch; [exact Ha | apply appends_ret]. Qed.

Lemma appends_return_if (g : Gate) (c : bool) (before : M unit) :
  appends before -> appends (return_if g c before).
Proof.
  intros Hb. unfold return_if.
  apply appends_bind; [now apply appends_note | intros _].
  apply appends_when. apply appends_bind; [exact Hb | intros _; apply appends_exit].
Qed.

(** A fill puts one entry on top of one histogram, or stops at a null
    pointer with nothing changed. *)
Lemma appends_Fill (m : Member) (s : Side) (e : Entry) : appends (Fill m s e).
Proof.
  intros w. unfold Fill.
  destruct (side s (member m w)) as [me | ] eqn:E; cbn [final trace];
    [ | apply grown_refl].
  split; [now destruct m | ]. intros m' s'.
  destruct w as [[n1 d1] [n2 d2] [n3 d3] [n4 d4] f].
  destruct m, s, m', s'; cbn in E |- *; try rewrite E;
    try (eexists; split; [reflexivity | split; [repeat split | reflexivity]]).
  all: match goal with
       | |- match ?o with _ => _ end =>
           destruct o as [x | ];
           [exists x; split; [reflexivity | split; [repeat split | reflexivity]]
           | now split]
       end.
Qed.
End Growth.

(** ** More on comparisons and on NaN *)

Section NanFacts.
Local Open Scope dbl_scope.

Lemma nan_mul_l (a b : double) : Double.is_nan a = true -> Double.is_nan (a * b) = true.
Proof. destruct a; try discriminate. reflexivity. Qed.

Lemma nan_mul_r (a b : double) : Double.is_nan b = true -> Double.is_nan (a * b) = true.
Proof. destruct b; try discriminate. now destruct a. Qed.

Lemma nan_add_l (a b : double) : Double.is_nan a = true -> Double.is_nan (a + b) = true.
Proof. destruct a; try discriminate. reflexivity. Qed.

Lemma nan_add_r (a b : double) : Double.is_nan b = true -> Double.is_nan (a + b) = true.
Proof. destruct b; try discriminate. now destruct a. Qed.

Lemma nan_sub_l (a b : double) : Double.is_nan a = true -> Double.is_nan (a - b) = true.
Proof. destruct a; try discriminate. reflexivity. Qed.

Lemma nan_sqrt (a : double) : Double.is_nan a = true -> Double.is_nan (Double.sqrt a) = true.
Proof. destruct a; try discriminate. reflexivity. Qed.

(** Every comparison with a NaN is false. *)
Lemma ltb_nan_l (a b : double) : Double.is_nan a = true -> (a <? b) = false.
Proof. destruct a; try discriminate. reflexivity. Qed.

Lemma leb_nan_l (a b : double) : Double.is_nan a = true -> (a <=? b) = false.
Proof. destruct a; try discriminate. reflexivity. Qed.

Lemma geb_nan_l (a b : double) : Double.is_nan a = true -> (a >=? b) = false.
Proof. destruct a; try discriminate. now destruct b. Qed.

(** What rounding gives has the sign it was given, or is a NaN. *)
Lemma binary_round_aux_positive (prec emax : Z) (m e : Z) (l : location) :
  let x := binary_round_aux prec emax false m e l in
  Double.is_nan x = true \/ (dbl_0 <=? x) = true.
Proof.
  unfold binary_round_aux.
  destruct (shr_fexp prec emax m e l) as [mrs' e'].
  destruct (shr_fexp prec emax _ e' loc_Exact) as [mrs'' e''].
  destruct (shr_m mrs'') as [ | p | p]; cbn; auto.
  destruct (e'' <=? emax - prec)%Z; cbn; auto.
Qed.

(** A square is never negative. *)
Lemma square_nonneg (x : double) :
  Double.is_nan (x * x) = true \/ (dbl_0 <=? x * x) = true.
Proof.
  destruct x as [s | s | | s m e]; cbn [Double.mul SFmul].
  - destruct s; cbn; auto.
  - destruct s; cbn; auto.
  - cbn; auto.
  - replace (xorb s s) with false by now destruct s.
    apply binary_round_aux_positive.
Qed.

Lemma abs_nonneg_or_nan (x : double) :
  Double.is_nan (Double.abs x) = true \/ (dbl_0 <=? Double.abs x) = true.
Proof. destruct x as [s | s | | s m e]; cbn; auto. Qed.

(** A number that is not negative is not below a cut that is not
    positive. *)
Lemma nonneg_not_below_nonpos (x c : double) :
  (dbl_0 <=? x) = true -> (c <=? dbl_0) = true -> (x <? c) = false.
Proof.
  destruct x as [[ | ] | [ | ] | | [ | ] mx ex], c as [[ | ] | [ | ] | | [ | ] mc ec];
    cbn; intros H K; try discriminate; reflexivity.
Qed.

Lemma square_not_below_nonpos (x c : double) :
  (c <=? dbl_0) = true -> (x * x <? c) = false.
Proof.
  intros K. destruct (square_nonneg x) as [N | P].
  - now apply ltb_nan_l.
  - now apply nonneg_not_below_nonpos.
Qed.

(** X7. A hemisphere whose px or py is a NaN does not take the sentinel
    branch of CalcMR: the MR that comes back is a NaN. *)
Theorem CalcMR_propagates_nan (ja jb : XYZTLorentzVector) :
  Double.is_nan (Px ja) = true \/ Double.is_nan (Py ja) = true ->
  (Pt ja <=? dbl_0_1) = false /\ Double.is_nan (CalcMR ja jb) = true.
Proof.
  intros H.
  assert (T : Double.is_nan (Px ja * Px ja + Py ja * Py ja) = true).
  { destruct H as [H | H].
    - now apply nan_add_l, nan_mul_l.
    - now apply nan_add_r, nan_mul_l. }
  assert (L : (Pt ja <=? dbl_0_1) = false)
    by (apply leb_nan_l; unfold Pt; now apply nan_sqrt).
  split; [exact L | ].
  unfold CalcMR. rewrite L. cbv zeta.
  apply nan_mul_l, nan_sqrt, nan_sub_l, nan_sub_l, nan_mul_l, nan_add_l.
  unfold P. now apply nan_sqrt, nan_add_l.
Qed.
End NanFacts.

(** ** Booking one pair *)

Section BookingMore.
Local Open Scope string_scope.
Local Open Scope monad_scope.

(** X8. The number of bins handed to the booker is the number of edges
    less one, as long as there are no more than 2^31 edges; so an empty
    list of edges is booked with -1 bins. *)
Theorem nbins_of_counts_edges (edges : list double) :
  (Z.of_nat (List.length edges) <= 2 ^ 31)%Z ->
  nbins_of edges = (Z.of_nat (List.length edges) - 1)%Z /\
  nbins_of (@nil double) = (-1)%Z.
Proof.
  intros H. split; [ | reflexivity].
  unfold nbins_of, to_int.
  destruct edges as [ | x edges]; [reflexivity | ].
  cbn [List.length] in *.
  rewrite (Z.mod_small (Z.of_nat (S (List.length edges)) - 1) (2 ^ 64)) by lia.
  rewrite Z.mod_small by lia. lia.
Qed.
End BookingMore.

(** ** More on [analyze] *)

Ltac appends_step :=
  cbv zeta;
  first [ apply appends_bind; [ | intros ? ]
        | apply appends_return_if
        | apply appends_when
        | apply appends_branch
        | apply appends_Fill
        | apply appends_ret
        | apply appends_exit
        | apply appends_deref
        | apply appends_front
        | apply appends_at
        | apply appends_note; reflexivity ].

(** Conditions on the number of jets, read as arithmetic. *)
Ltac jet_counts :=
  repeat match goal with
         | H : Nat.ltb _ _ = true |- _ => apply Nat.ltb_lt in H
         | H : Nat.ltb _ _ = false |- _ => apply Nat.ltb_ge in H
         end.

Section AnalyzeMore.
Context {host : Azimuth}.
Variable cfg : Config.
Local Open Scope dbl_scope.

Lemma analyze_appends (ev : Event) : appends (analyze cfg ev).
Proof.
  unfold analyze, razorVariables, CalcR. repeat appends_step.
Qed.

Lemma one_fill_each (ev : Event) (w : World) (m : Member) (s : Side) :
  List.length (fills_of m s (trace (analyze cfg ev w))) <= 1.
Proof.
  analyze_cases ev w.
  all: destruct m, s; cbn [fills_of Member_eqb Side_eqb andb List.length]; lia.
Qed.

(** X3. [analyze] only ever grows the histograms: whatever the event and
    the state, the current folder and the null pointers stay as they are,
    every histogram keeps its folder, name, title, binning and axis
    titles, and its entries are the ones it held with, on top, what the
    journal shows as filled into it, which is one entry at most. *)
Theorem analyze_only_grows_histograms (ev : Event) (w : World) :
  let r := analyze cfg ev w in
  grown w (final r) (trace r) /\
  (forall m s, List.length (fills_of m s (trace r)) <= 1).
Proof.
  split.
  - apply analyze_appends.
  - intros m s. apply one_fill_each.
Qed.

(** X4. Past the MET cut, an event gets through the two jet checks
    exactly when at least njets_ of its jets pass the jet selection: the
    check on the size of the whole collection rejects nothing that the
    check on the selected jets would let through. *)
Theorem jet_cut_counts_selected_jets (ev : Event) (w : World) (jetc : list PFJet) :
  let r := analyze cfg ev w in
  In (Checked MetCut true) (trace r) ->
  jetHandle ev = Some jetc ->
  (In (Checked JetCount true) (trace r) <->
   njets_ cfg <= List.length (filter (jetSelection_ cfg) jetc)).
Proof.
  analyze_cases ev w.
  all: intros M E; in_cases M; clear M.
  all: first [discriminate E | apply Some_eq in E; subst jetc].
  all: match goal with
       | |- context [filter ?f ?l] => pose proof (filter_length_le f l)
       end.
  all: jet_counts.
  all: split; [intros F; in_cases F; lia | intros L; first [in_solve; fail | lia]].
Qed.

(** X5. The second check of the denominator trigger rejects an event only
    if [accept] changed its answer since the first check: with the same
    answer both times it never fails. *)
Theorem second_denominator_check_is_redundant (ev : Event) (w : World) :
  let r := analyze cfg ev w in
  den_accept_first ev = den_accept_second ev ->
  ~ In (Checked DenominatorTriggerAgain false) (trace r).
Proof.
  analyze_cases ev w.
  all: intros E F; in_cases F.
  all: rewrite E in *; congruence.
Qed.

(** X6. NaN razor variables are not cut away: an event whose MR or Rsq is
    a NaN passes the razor cut, whatever the cut values. A NaN MR then
    keeps the event out of the Rsq histograms, and a NaN Rsq out of the MR
    histograms. *)
Theorem nan_passes_razor_cut (ev : Event) (w : World) (MR R Rsq dPhiR : double) :
  let r := analyze cfg ev w in
  In (Computed MR R Rsq dPhiR) (trace r) ->
  (Double.is_nan MR = true \/ Double.is_nan Rsq = true ->
     In (Checked RazorCut true) (trace r)) /\
  (Double.is_nan MR = true -> forall s e, ~ In (Filled Rsq_ME s e) (trace r)) /\
  (Double.is_nan Rsq = true -> forall s e, ~ In (Filled MR_ME s e) (trace r)).
Proof.
  analyze_cases ev w.
  all: intros H; in_cases H; apply Computed_inj in H;
    destruct H as (<- & _ & <- & _).
  all: split; [intros N | split; intros N ? ? F].
  all: try (in_solve; fail).
  all: try (in_cases F; fail).
  all: try (apply geb_nan_l with (b := mrCut_ cfg) in N; congruence).
  all: try (apply geb_nan_l with (b := rsqCut_ cfg) in N; congruence).
  all: match goal with
       | B : (Double.ltb _ ?c1 && Double.ltb _ ?c2) = true |- _ =>
           apply andb_true_iff in B; destruct B as [B1 B2];
           destruct N as [N | N];
           [ apply ltb_nan_l with (b := c2) in N
           | apply ltb_nan_l with (b := c1) in N ]; congruence
       end.
Qed.

(** X9. What goes into the Rsq and the dPhiR histograms is never
    negative: it is zero, positive or a NaN. *)
Theorem Rsq_and_dPhiR_fills_are_not_negative (ev : Event) (w : World)
        (m : Member) (s : Side) (x : double) :
  let r := analyze cfg ev w in
  m = Rsq_ME \/ m = dPhiR_ME ->
  In (Filled m s (Entry1 x)) (trace r) ->
  Double.is_nan x = true \/ (dbl_0 <=? x) = true.
Proof.
  analyze_cases ev w.
  all: intros [-> | ->] F; in_cases F; apply Filled_inj in F;
    destruct F as (_ & _ & F); apply Entry1_inj in F; subst x.
  all: first [apply square_nonneg | apply abs_nonneg_or_nan].
Qed.

(** X10. With rsqCut_ at zero or below, the razor cut rejects no
    event. *)
Theorem nonpositive_rsqCut_disables_razor_cut (ev : Event) (w : World) :
  let r := analyze cfg ev w in
  (rsqCut_ cfg <=? dbl_0) = true ->
  ~ In (Checked RazorCut false) (trace r).
Proof.
  analyze_cases ev w.
  all: intros K F; in_cases F.
  all: match goal with
       | B : (Double.ltb (?x * ?x) ?c && _) = true |- _ =>
           rewrite (square_not_below_nonpos x c K) in B; discriminate B
       end.
Qed.
End AnalyzeMore.

(** ** The order in which the hemispheres are stored *)

Ltac in_solve_computed :=
  cbn [In];
  repeat lazymatch goal with
         | |- Computed _ _ _ _ = Computed _ _ _ _ \/ _ => left; reflexivity
         | |- _ \/ _ => right
         end.

Section StorageOrder.
Context {host : Azimuth}.
Variable cfg : Config.
Local Open Scope dbl_scope.

(** X12. When one of the two leading hemispheres has the greater pT,
    storing them the other way round changes nothing but dPhiR: the same
    calls of CalcMR are made, the same MR, R and Rsq computed, the same
    checks pass and fail, the run ends the same way, and all histograms
    but the dPhiR pair are filled alike. *)
Theorem storage_order_of_hemispheres (ev : Event) (w : World)
        (h0 h1 : XYZTLorentzVector) (rest : list XYZTLorentzVector) :
  let r := analyze cfg ev w in
  let r' := analyze cfg (swap_hemispheres ev) w in
  hemispheres ev = Some (h0 :: h1 :: rest) ->
  (Pt h0 >? Pt h1) = true \/ (Pt h1 >? Pt h0) = true ->
  result r = result r' /\
  (forall ja jb, In (CalledCalcMR ja jb) (trace r) <->
                 In (CalledCalcMR ja jb) (trace r')) /\
  (forall MR R Rsq, (exists d, In (Computed MR R Rsq d) (trace r)) <->
                    (exists d, In (Computed MR R Rsq d) (trace r'))) /\
  (forall g b, In (Checked g b) (trace r) <-> In (Checked g b) (trace r')) /\
  (forall m s e, m <> dPhiR_ME ->
     (In (Filled m s e) (trace r) <-> In (Filled m s e) (trace r'))).
Proof.
  intros r r' H O. subst r r'.
  assert (C : (Pt h0 >? Pt h1) = true /\ (Pt h1 >? Pt h0) = false \/
              (Pt h0 >? Pt h1) = false /\ (Pt h1 >? Pt h0) = true).
  { destruct O as [O | O]; [left | right]; split; trivial; now apply gtb_asym. }
  clear O. unfold analyze, razorVariables, CalcR, swap_hemispheres.
  cbn [metHandle jetHandle hemispheres den_accept_first den_accept_second
       num_accept].
  rewrite H. destruct w as [[? ?] [? ?] [? ?] [? ?] ?].
  destruct C as [[C1 C2] | [C1 C2]]; run_simpl; rewrite ?C1, ?C2; run_simpl;
    repeat run_step.
  all: split; [reflexivity | ].
  all: split;
    [ intros ? ?; split; intros F; in_cases F; apply CalledCalcMR_inj in F;
      destruct F as (<- & <-); in_solve | ].
  all: split;
    [ intros ? ? ?; split; intros (? & F); in_cases F;
      apply Computed_inj in F; destruct F as (<- & <- & <- & _);
      eexists; in_solve_computed | ].
  all: split;
    [ intros ? ?; split; intros F; in_cases F; apply Checked_inj in F;
      destruct F as (<- & <-); in_solve | ].
  all: intros ? ? ? N; split; intros F; in_cases F; apply Filled_inj in F;
    destruct F as (<- & <- & <-);
    first [solve [in_solve] | exfalso; apply N; reflexivity].
Qed.
End StorageOrder.

(** ** Booking and titling one pair *)

Section OnePair.
Local Open Scope string_scope.
Local Open Scope monad_scope.

(** X11. Whichever of the five overloads of bookME is used, booking a
    pair and then titling it with setMETitle succeeds from any state, null
    pointers or histograms already filled: the pair ends up as two fresh
    histograms in the current folder, named and titled after the given name
    and title, with the same binning and the given axis titles; the other
    three pairs and the current folder are not touched. *)
Theorem bookME_then_setMETitle (c : M unit) (me : Member)
        (histname histtitle titleX titleY : string) (w : World) :
  let r := (c ;; setMETitle me titleX titleY) w in
  (exists nbins min max, c = bookME_1D me histname histtitle nbins min max) \/
  (exists binning, c = bookME_1DVar me histname histtitle binning) \/
  (exists nbinsX xmin xmax ymin ymax,
     c = bookME_Profile me histname histtitle nbinsX xmin xmax ymin ymax) \/
  (exists nbinsX xmin xmax nbinsY ymin ymax,
     c = bookME_2D me histname histtitle nbinsX xmin xmax nbinsY ymin ymax) \/
  (exists binningX binningY,
     c = bookME_2DVar me histname histtitle binningX binningY) ->
  result r = Value tt /\
  (exists b,
     member me (final r) =
       mkRazorME
         (Some (titled (currentFolder w) (histname ++ "_numerator")
                       (histtitle ++ " (numerator)") b titleX titleY))
         (Some (titled (currentFolder w) (histname ++ "_denominator")
                       (histtitle ++ " (denominator)") b titleX titleY))) /\
  (forall m, m <> me -> member m (final r) = member m w) /\
  currentFolder (final r) = currentFolder w.
Proof.
  intros r H. subst r.
  destruct w as [[? ?] [? ?] [? ?] [? ?] ?].
  destruct H as [(? & ? & ? & ->) | [(? & ->) | [(? & ? & ? & ? & ? & ->)
                | [(? & ? & ? & ? & ? & ? & ->) | (? & ? & ->)]]]].
  all: unfold bookME_1D, bookME_1DVar, bookME_Profile, bookME_2D, bookME_2DVar,
         setMETitle, book, setAxisTitle.
  all: destruct me; run_simpl;
    cbn [Z.eqb Pos.eqb me_folder me_name me_title me_booking me_axis1 me_axis2
         me_entries].
  all: split; [reflexivity | ].
  all: split; [eexists; reflexivity | ].
  all: split; [ | reflexivity].
  all: intros mm N; destruct mm;
    first [reflexivity | exfalso; apply N; reflexivity].
Qed.
End OnePair.

(** ** The further properties on the sample events *)

Section MoreOnSamples.
Import Sample.
Local Open Scope dbl_scope.

#[local] Existing Instance azimuth.

Local Notation "'run_on' ev" :=
  (analyze (host := azimuth) config ev booked_world) (at level 10, ev at level 9).

Ltac by_evaluation :=
  vm_compute; repeat first [ left; reflexivity | right ].

(** X1 on the sample event. *)
Lemma analyze_does_not_abort_witness :
  booked booked_world /\ result (run_on event) <> Aborted.
Proof.
  split; [exact sample_histograms_booked | ].
  exact (@analyze_does_not_abort azimuth config event booked_world met0 [] jets0
           sample_histograms_booked eq_refl eq_refl).
Defined.

(** X2 on the event with three hemispheres. *)
Lemma no_razor_without_hemispheres_witness :
  (forall hs, hemispheres event_three_hemispheres = Some hs ->
     List.length hs <> 2 /\ List.length hs <> 5 /\ List.length hs <> 10) /\
  final (run_on event_three_hemispheres) = booked_world.
Proof.
  assert (H : forall hs, hemispheres event_three_hemispheres = Some hs ->
                List.length hs <> 2 /\ List.length hs <> 5 /\ List.length hs <> 10).
  { intros hs E. cbn [hemispheres event_three_hemispheres] in E.
    apply Some_eq in E. subst hs. cbn [List.length]. repeat split; discriminate. }
  split; [exact H | ].
  exact (proj2 (proj2 (@no_razor_without_hemispheres azimuth config
                         event_three_hemispheres booked_world H))).
Defined.

(** X4 on the sample event: two jets, both above 80. *)
Lemma jet_cut_counts_selected_jets_witness :
  In (Checked MetCut true) (trace (run_on event)) /\
  jetHandle event = Some jets0 /\
  (In (Checked JetCount true) (trace (run_on event)) <->
   njets_ config <= List.length (filter (jetSelection_ config) jets0)).
Proof.
  assert (M : In (Checked MetCut true) (trace (run_on event))) by by_evaluation.
  split; [exact M | split; [reflexivity | ]].
  exact (@jet_cut_counts_selected_jets azimuth config event booked_world jets0
           M eq_refl).
Defined.

(** X5 on the sample event. *)
Lemma second_denominator_check_is_redundant_witness :
  den_accept_first event = den_accept_second event /\
  ~ In (Checked DenominatorTriggerAgain false) (trace (run_on event)).
Proof.
  split; [reflexivity | ].
  exact (@second_denominator_check_is_redundant azimuth config event booked_world
           eq_refl).
Defined.

(** X6 on the event with a NaN hemisphere. *)
Lemma nan_passes_razor_cut_witness :
  let MR := CalcMR hemi_nan hemi1 in
  let R := ratio_as_float (MTR_of hemi_nan hemi1 (momentum met0)) MR in
  let dPhiR := Double.abs (deltaPhi (Phi hemi_nan) (Phi hemi1)) in
  In (Computed MR R (R * R) dPhiR) (trace (run_on event_nan)) /\
  Double.is_nan MR = true /\
  In (Checked RazorCut true) (trace (run_on event_nan)).
Proof.
  intros MR R dPhiR.
  assert (H : In (Computed MR R (R * R) dPhiR) (trace (run_on event_nan)))
    by by_evaluation.
  assert (N : Double.is_nan MR = true) by (vm_compute; reflexivity).
  split; [exact H | split; [exact N | ]].
  exact (proj1 (@nan_passes_razor_cut azimuth config event_nan booked_world
                  MR R (R * R) dPhiR H) (or_introl N)).
Defined.

(** X7 on the NaN hemisphere. *)
Lemma CalcMR_propagates_nan_witness :
  Double.is_nan (Px hemi_nan) = true /\
  Double.is_nan (CalcMR hemi_nan hemi1) = true.
Proof.
  split; [reflexivity | ].
  exact (proj2 (@CalcMR_propagates_nan hemi_nan hemi1 (or_introl eq_refl))).
Defined.

(** X8 on the default MR edges: fourteen edges, thirteen bins. *)
Lemma nbins_of_counts_edges_witness :
  (Z.of_nat (List.length mrbins) <= 2 ^ 31)%Z /\ nbins_of mrbins = 13%Z.
Proof.
  assert (H : (Z.of_nat (List.length mrbins) <= 2 ^ 31)%Z)
    by (vm_compute; discriminate).
  split; [exact H | ].
  exact (proj1 (@nbins_of_counts_edges mrbins H)).
Defined.

(** X9 on the sample event. *)
Lemma Rsq_and_dPhiR_fills_are_not_negative_witness :
  In (Filled Rsq_ME Den (Entry1 (R0 * R0))) (trace (run_on event)) /\
  (Double.is_nan (R0 * R0) = true \/ (dbl_0 <=? R0 * R0) = true).
Proof.
  assert (F : In (Filled Rsq_ME Den (Entry1 (R0 * R0))) (trace (run_on event)))
    by by_evaluation.
  split; [exact F | ].
  exact (@Rsq_and_dPhiR_fills_are_not_negative azimuth config event booked_world
           Rsq_ME Den (R0 * R0) (or_introl eq_refl) F).
Defined.

(** X10 on the defaults with rsqCut_ at zero. *)
Lemma nonpositive_rsqCut_disables_razor_cut_witness :
  (rsqCut_ config_without_rsq_cut <=? dbl_0) = true /\
  ~ In (Checked RazorCut false)
       (trace (analyze config_without_rsq_cut event booked_world)).
Proof.
  assert (K : (rsqCut_ config_without_rsq_cut <=? dbl_0) = true)
    by (vm_compute; reflexivity).
  split; [exact K | ].
  exact (@nonpositive_rsqCut_disables_razor_cut azimuth config_without_rsq_cut
           event booked_world K).
Defined.

(** X11 with the profile overload, on the state the constructor leaves. *)
Lemma bookME_then_setMETitle_witness :
  let c := bookME_Profile MR_ME "MR" "PF MR" 10 dbl_0 dbl_1 dbl_0 dbl_1 in
  (exists nbinsX xmin xmax ymin ymax,
     c = bookME_Profile MR_ME "MR" "PF MR" nbinsX xmin xmax ymin ymax) /\
  result (bind c (fun _ => setMETitle MR_ME "x" "y") constructed) = Value tt.
Proof.
  intros c.
  assert (H : exists nbinsX xmin xmax ymin ymax,
            c = bookME_Profile MR_ME "MR" "PF MR" nbinsX xmin xmax ymin ymax)
    by (exists 10%Z, dbl_0, dbl_1, dbl_0, dbl_1; reflexivity).
  split; [exact H | ].
  exact (proj1 (@bookME_then_setMETitle c MR_ME "MR" "PF MR" "x" "y" constructed
                  (or_intror (or_intror (or_introl H))))).
Defined.

(** X12 on the sample event. *)
Lemma storage_order_of_hemispheres_witness :
  hemispheres event = Some [hemi0; hemi1] /\
  (Pt hemi0 >? Pt hemi1) = true /\
  result (run_on event) = result (run_on (swap_hemispheres event)).
Proof.
  assert (O : (Pt hemi0 >? Pt hemi1) = true) by (vm_compute; reflexivity).
  split; [reflexivity | split; [exact O | ]].
  exact (proj1 (@storage_order_of_hemispheres azimuth config event booked_world
                  hemi0 hemi1 [] eq_refl (or_introl O))).
Defined.
End MoreOnSamples.
